(** * floatmoneylint: the float-money analyzer of [lib/floatmoneylint.go]

    A shallow embedding of the analyzer: the name matcher ([isSuspicious],
    [intersects]), the syntactic type resolution ([getInnerFloat],
    [isFloatExpr]) and the traversal callback of [run], over a model of the
    part of [go/ast] the analyzer looks at.

    The analyzer calls three functions of the Go standard library,
    [strings.ToLower], [strconv.ParseInt] and [strconv.ParseFloat].  They are
    not part of the repository: the analyzer is embedded over an interface
    [GoLib] that provides them, and module [strings] / [strconv] below give
    an executable model used to run the analyzer on concrete programs. *)

From Stdlib Require Import ZArith List String Ascii Bool.
Import ListNotations.

Local Open Scope string_scope.
Local Open Scope list_scope.
Local Open Scope Z_scope.

(* ================================================================== *)
(** * Part I: definitions *)
(* ================================================================== *)

(** ** Bytes of a Go string *)

(** The numeric value of a byte. *)
Definition byte (c : ascii) : Z := Z.of_N (N_of_ascii c).
Arguments byte c%_char.

(** [lower] of strconv: [c | ('x' - 'X')]. *)
Definition lower (c : Z) : Z := Z.lor c 32.

Definition isDigit (c : Z) : bool := (byte "0" <=? c) && (c <=? byte "9").

(** ** Package [strings] *)

Module strings.

(** [strings.Contains(s, substr)]: [substr] occurs in [s]. *)
Fixpoint Contains (s substr : string) : bool :=
  if String.prefix substr s then true
  else match s with
       | EmptyString => false
       | String _ s' => Contains s' substr
       end.

(** Lower-casing of one byte of ASCII text: ['A'..'Z'] move to ['a'..'z']. *)
Definition toLowerByte (c : ascii) : ascii :=
  if (byte "A" <=? byte c) && (byte c <=? byte "Z")
  then ascii_of_N (N_of_ascii c + 32)
  else c.

(** [strings.ToLower(s)] on ASCII text, which is what Go computes for a
    string without bytes above 0x7f.  Bytes above 0x7f are kept as they are
    (Go applies the Unicode case mapping to the runes they encode). *)
Fixpoint ToLower (s : string) : string :=
  match s with
  | EmptyString => EmptyString
  | String c s' => String (toLowerByte c) (ToLower s')
  end.

End strings.

(** ** Package [strconv] *)

Module strconv.

(** The [Err] field of a [*NumError]. *)
Inductive NumError : Type := ErrSyntax | ErrRange | ErrBase | ErrBitSize.

Definition bytes (s : string) : list Z := map byte (list_ascii_of_string s).

Definition IntSize : Z := 64.
Definition maxUint64 : Z := 2 ^ 64 - 1.

(** What [underscoreOK] saw last: the start of the number ['^'], a digit or
    base prefix ['0'], an underscore ['_'], something else ['!']. *)
Inductive Saw : Type := SawStart | SawDigit | SawUnderscore | SawOther.

Fixpoint underscoreOK_loop (hex : bool) (saw : Saw) (s : list Z) : bool :=
  match s with
  | [] => match saw with SawUnderscore => false | _ => true end
  | c :: r =>
      if isDigit c || (hex && (byte "a" <=? lower c) && (lower c <=? byte "f"))
      then underscoreOK_loop hex SawDigit r
      else if c =? byte "_"
      then match saw with
           | SawDigit => underscoreOK_loop hex SawUnderscore r
           | _ => false
           end
      else match saw with
           | SawUnderscore => false
           | _ => underscoreOK_loop hex SawOther r
           end
  end.

(** [underscoreOK(s)]: underscores only between digits, or between a base
    prefix and a digit. *)
Definition underscoreOK (s : list Z) : bool :=
  let s := match s with
           | c :: r => if (c =? byte "-") || (c =? byte "+") then r else s
           | [] => s
           end in
  match s with
  | c0 :: c1 :: r =>
      if (c0 =? byte "0") &&
         ((lower c1 =? byte "b") || (lower c1 =? byte "o") || (lower c1 =? byte "x"))
      then underscoreOK_loop (lower c1 =? byte "x") SawDigit r
      else underscoreOK_loop false SawStart s
  | _ => underscoreOK_loop false SawStart s
  end.

(** The digit loop of [ParseUint]: [inl (n, underscores)] when the loop
    ends, [inr (value, err)] when it returns from inside. *)
Fixpoint ParseUint_loop (base0 : bool) (base cutoff maxVal : Z)
  (s : list Z) (n : Z) (underscores : bool) : (Z * bool) + (Z * NumError) :=
  match s with
  | [] => inl (n, underscores)
  | c :: r =>
      if (c =? byte "_") && base0
      then ParseUint_loop base0 base cutoff maxVal r n true
      else
        let d := if isDigit c then Some (c - byte "0")
                 else if (byte "a" <=? lower c) && (lower c <=? byte "z")
                 then Some (lower c - byte "a" + 10)
                 else None in
        match d with
        | None => inr (0, ErrSyntax)
        | Some d =>
            if d >=? base then inr (0, ErrSyntax)
            else if n >=? cutoff then inr (maxVal, ErrRange)
            else
              let n' := n * base in
              let n1 := (n' + d) mod 2 ^ 64 in
              if (n1 <? n') || (n1 >? maxVal) then inr (maxVal, ErrRange)
              else ParseUint_loop base0 base cutoff maxVal r n1 underscores
        end
  end.

(** The base and the digits left after the prefix, for [base == 0]. *)
Definition basePrefix (s : list Z) : Z * list Z :=
  match s with
  | c0 :: r0 =>
      if c0 =? byte "0" then
        match r0 with
        | c1 :: ((_ :: _) as r1) =>
            if lower c1 =? byte "b" then (2, r1)
            else if lower c1 =? byte "o" then (8, r1)
            else if lower c1 =? byte "x" then (16, r1)
            else (8, r0)
        | _ => (8, r0)
        end
      else (10, s)
  | [] => (10, s)
  end.

Definition ParseUint_bytes (s0 : list Z) (base bitSize : Z) : Z * option NumError :=
  match s0 with
  | [] => (0, Some ErrSyntax)
  | _ :: _ =>
      let base0 := base =? 0 in
      let pre := if (2 <=? base) && (base <=? 36) then Some (base, s0)
                 else if base0 then Some (basePrefix s0)
                 else None in
      match pre with
      | None => (0, Some ErrBase)
      | Some (base, s) =>
          if negb (bitSize =? 0) && ((bitSize <? 0) || (bitSize >? 64))
          then (0, Some ErrBitSize)
          else
            let bitSize := if bitSize =? 0 then IntSize else bitSize in
            let cutoff := maxUint64 / base + 1 in
            let maxVal := 2 ^ bitSize - 1 in
            match ParseUint_loop base0 base cutoff maxVal s 0 false with
            | inr (v, e) => (v, Some e)
            | inl (n, underscores) =>
                if underscores && negb (underscoreOK s0) then (0, Some ErrSyntax)
                else (n, None)
            end
      end
  end.

(** [strconv.ParseUint(s, base, bitSize)]: the value and the error. *)
Definition ParseUint (s : string) (base bitSize : Z) : Z * option NumError :=
  ParseUint_bytes (bytes s) base bitSize.

(** [strconv.ParseInt(s, base, bitSize)]: the value and the error. *)
Definition ParseInt (s : string) (base bitSize : Z) : Z * option NumError :=
  match bytes s with
  | [] => (0, Some ErrSyntax)
  | c :: r =>
      let neg := c =? byte "-" in
      let s1 := if (c =? byte "+") || neg then r else c :: r in
      let '(un, err) := ParseUint_bytes s1 base bitSize in
      match err with
      | Some ErrSyntax => (0, err)
      | Some ErrBase => (0, err)
      | Some ErrBitSize => (0, err)
      | _ =>
          let bitSize := if bitSize =? 0 then IntSize else bitSize in
          let cutoff := 2 ^ (bitSize - 1) in
          if negb neg && (un >=? cutoff) then (cutoff - 1, Some ErrRange)
          else if neg && (un >? cutoff) then (- cutoff, Some ErrRange)
          else (if neg then - un else un, None)
      end
  end.

(** *** ParseFloat: which texts it accepts *)

Definition foldByte (c : Z) : Z :=
  if (byte "A" <=? c) && (c <=? byte "Z") then c + 32 else c.

Fixpoint commonPrefixLenIgnoreCase (s prefix : list Z) : Z :=
  match s, prefix with
  | c :: s', p :: prefix' =>
      if foldByte c =? p then 1 + commonPrefixLenIgnoreCase s' prefix' else 0
  | _, _ => 0
  end.

Definition infPrefix (s : list Z) (nsign : Z) : option Z :=
  let n := commonPrefixLenIgnoreCase s (bytes "infinity") in
  let n := if (3 <? n) && (n <? 8) then 3 else n in
  if (n =? 3) || (n =? 8) then Some (nsign + n) else None.

(** [special(s)]: the number of bytes of a leading infinity or NaN. *)
Definition special (s : list Z) : option Z :=
  match s with
  | [] => None
  | c :: r =>
      if (c =? byte "+") || (c =? byte "-") then infPrefix r 1
      else if (c =? byte "i") || (c =? byte "I") then infPrefix s 0
      else if (c =? byte "n") || (c =? byte "N")
      then if commonPrefixLenIgnoreCase s (bytes "nan") =? 3 then Some 3 else None
      else None
  end.

(** The state of the mantissa loop of [readFloat].  [mantissa] holds all the
    significant digits read (Go keeps the first 19, or 16 in base 16, notes
    in [trunc] whether a non-zero digit was dropped and reads the text again
    when it was). *)
Record Mant : Type := mkMant {
  sawdot : bool; sawdigits : bool; nd : Z; dp : Z; mantissa : Z;
  underscores : bool }.

Fixpoint readMant (base : Z) (s : list Z) (m : Mant) : Mant * list Z :=
  match s with
  | [] => (m, [])
  | c :: r =>
      if c =? byte "_"
      then readMant base r
             (mkMant (sawdot m) (sawdigits m) (nd m) (dp m) (mantissa m) true)
      else if c =? byte "."
      then if sawdot m then (m, s)
           else readMant base r
                  (mkMant true (sawdigits m) (nd m) (nd m) (mantissa m) (underscores m))
      else if isDigit c
      then if (c =? byte "0") && (nd m =? 0)
           then readMant base r
                  (mkMant (sawdot m) true (nd m) (dp m - 1) (mantissa m) (underscores m))
           else readMant base r
                  (mkMant (sawdot m) true (nd m + 1) (dp m)
                     (mantissa m * base + (c - byte "0")) (underscores m))
      else if (base =? 16) && (byte "a" <=? lower c) && (lower c <=? byte "f")
      then readMant base r
             (mkMant (sawdot m) true (nd m + 1) (dp m)
                (mantissa m * 16 + (lower c - byte "a" + 10)) (underscores m))
      else (m, s)
  end.

(** The digits of the exponent: the value (no longer updated once it
    reaches 10000), whether an underscore was seen, and the text left. *)
Fixpoint readExp (s : list Z) (e : Z) (us : bool) : Z * bool * list Z :=
  match s with
  | c :: r =>
      if c =? byte "_" then readExp r e true
      else if isDigit c
      then readExp r (if e <? 10000 then e * 10 + (c - byte "0") else e) us
      else (e, us, s)
  | [] => (e, us, [])
  end.

(** [readFloat(s)]: mantissa, exponent of the base (10, or 2 for a
    hexadecimal mantissa), whether the mantissa is hexadecimal, and the text
    left unread; [None] when [ok] is false. *)
Definition readFloat (s : list Z) : option (Z * Z * bool * list Z) :=
  match s with
  | [] => None
  | c :: r =>
      let s1 := if (c =? byte "+") || (c =? byte "-") then r else s in
      let '(hex, s2) :=
        match s1 with
        | c0 :: c1 :: ((_ :: _) as r2) =>
            if (c0 =? byte "0") && (lower c1 =? byte "x") then (true, r2)
            else (false, s1)
        | _ => (false, s1)
        end in
      let base := if hex then 16 else 10 in
      let expChar := if hex then byte "p" else byte "e" in
      let '(m, s3) := readMant base s2 (mkMant false false 0 0 0 false) in
      if negb (sawdigits m) then None
      else
        let dp0 := if sawdot m then dp m else nd m in
        let dp1 := if hex then dp0 * 4 else dp0 in
        let ndMant := if hex then nd m * 4 else nd m in
        let tail :=
          match s3 with
          | c :: r3 =>
              if lower c =? expChar then
                match r3 with
                | [] => None
                | c' :: r4 =>
                    let esign := if c' =? byte "-" then -1 else 1 in
                    let s4 := if (c' =? byte "+") || (c' =? byte "-") then r4 else r3 in
                    match s4 with
                    | d :: _ =>
                        if isDigit d then
                          let '(e, us, s5) := readExp s4 0 (underscores m) in
                          Some (dp1 + e * esign, us, s5)
                        else None
                    | [] => None
                    end
                end
              else if hex then None
              else Some (dp1, underscores m, s3)
          | [] => if hex then None else Some (dp1, underscores m, s3)
          end in
        match tail with
        | None => None
        | Some (dp2, us, rest) =>
            let exp := if mantissa m =? 0 then 0 else dp2 - ndMant in
            let read := firstn (List.length s - List.length rest) s in
            if us && negb (underscoreOK read) then None
            else Some (mantissa m, exp, hex, rest)
        end
  end.

(** The magnitude from which the nearest float is an infinity: the largest
    finite value plus half a unit in its last place. *)
Definition overflowBound (bitSize : Z) : Z :=
  if bitSize =? 32 then 2 ^ 128 - 2 ^ 103 else 2 ^ 1024 - 2 ^ 970.

Definition overflows (bitSize : Z) (hex : bool) (mant exp : Z) : bool :=
  let r := if hex then 2 else 10 in
  negb (mant =? 0) &&
  (if 0 <=? exp then overflowBound bitSize <=? mant * r ^ exp
   else overflowBound bitSize * r ^ (- exp) <=? mant).

(** [strconv.ParseFloat(s, bitSize)]: the error; [None] is [err == nil].
    The whole text has to be a number in the syntax of Go's floating-point
    literals (or an infinity or NaN), and the nearest float has to be
    finite. *)
Definition ParseFloat_err (s : string) (bitSize : Z) : option NumError :=
  let b := bytes s in
  match special b with
  | Some n => if n =? Z.of_nat (List.length b) then None else Some ErrSyntax
  | None =>
      match readFloat b with
      | None => Some ErrSyntax
      | Some (mant, exp, hex, rest) =>
          match rest with
          | _ :: _ => Some ErrSyntax
          | [] => if overflows bitSize hex mant exp then Some ErrRange else None
          end
      end
  end.

End strconv.

(** ** The Go library the analyzer calls *)

(** [ToLower] is [strings.ToLower]; [ParseInt] is [strconv.ParseInt];
    [ParseFloat_err] is the error of [strconv.ParseFloat] ([None] for
    [err == nil]). *)
Class GoLib : Type := {
  ToLower : string -> string;
  ParseInt : string -> Z -> Z -> Z * option strconv.NumError;
  ParseFloat_err : string -> Z -> option strconv.NumError }.

(** The model of the library given above. *)
#[export] Instance golang : GoLib := {
  ToLower := strings.ToLower;
  ParseInt := strconv.ParseInt;
  ParseFloat_err := strconv.ParseFloat_err }.

(** ** Package [go/token] *)

(** [token.Pos]; [NoPos] is 0. *)
Definition Pos : Type := Z.
Definition NoPos : Pos := 0.
Definition IsValid (p : Pos) : bool := negb (p =? NoPos).

(** The tokens that occur in the nodes below: the kinds of a basic
    literal and the keywords of a general declaration. *)
Inductive Token : Type :=
| ILLEGAL | INT | FLOAT | IMAG | CHAR | STRING | IMPORT | CONST | TYPE | VAR.

(** ** Package [go/ast] *)

Record Ident : Type := mkIdent { NamePos : Pos; Name : string }.

Record BasicLit : Type := mkBasicLit { ValuePos : Pos; Kind : Token; Value : string }.

(** Induction principles of the syntax tree go through its lists and
    options. *)
Scheme All for option.
Scheme All for list.

(** The syntax tree.  The four kinds of expression the analyzer tells apart
    are constructors of their own; [OtherExpr] and [OtherStmt] stand for
    every other kind of expression and statement, with the span
    ([Pos()], [End()]) and the children that [ast.Walk] visits, in its
    order.  Comments are left out (no rule looks at them).  A field that
    may be nil is an [option]; [StructType.Fields], [TypeSpec.Name] and
    [FuncDecl.Name], which the analyzer dereferences unguarded and the
    parser always sets, are not.  [Node] is the interface [ast.Node];
    [NilFuncType] is the nil [*ast.FuncType] as a node, which [ast.Walk]
    passes on for a function declaration without a [Type]. *)
Inductive Expr : Type :=
| Ident_ (x : Ident)
| BasicLit_ (x : BasicLit)
| ArrayType (Lbrack : Pos) (Len : option Expr) (Elt : Expr)
| StructType (Struct : Pos) (Fields : FieldList)
| OtherExpr (From To : Pos) (children : list Node)
with Field : Type :=
| mkField (Names : list Ident) (Type_ : option Expr) (Tag : option BasicLit)
with FieldList : Type :=
| mkFieldList (Opening : Pos) (List_ : list Field) (Closing : Pos)
with FuncType : Type :=
| mkFuncType (Func : Pos) (TypeParams Params Results : option FieldList)
with Spec : Type :=
| ImportSpec (Name_ : option Ident) (Path : BasicLit)
| ValueSpec (Names : list Ident) (Type_ : option Expr) (Values : list Expr)
| TypeSpec (Name_ : Ident) (TypeParams : option FieldList) (Type_ : option Expr)
with Decl : Type :=
| BadDecl
| GenDecl (Tok : Token) (Specs : list Spec)
| FuncDecl (Recv : option FieldList) (Name_ : Ident) (Type_ : option FuncType)
    (Body : option BlockStmt)
with Stmt : Type :=
| Block (b : BlockStmt)
| DeclStmt (d : Decl)
| OtherStmt (children : list Node)
with BlockStmt : Type :=
| mkBlockStmt (List_ : list Stmt)
with File : Type :=
| mkFile (Name_ : Ident) (Decls : list Decl)
with Node : Type :=
| NExpr (e : Expr)
| NField (f : Field)
| NFieldList (l : FieldList)
| NFuncType (t : FuncType)
| NSpec (s : Spec)
| NDecl (d : Decl)
| NStmt (s : Stmt)
| NBlockStmt (b : BlockStmt)
| NFile (f : File)
| NilFuncType.

Scheme Expr_mind := Induction for Expr Sort Prop
with Field_mind := Induction for Field Sort Prop
with FieldList_mind := Induction for FieldList Sort Prop
with FuncType_mind := Induction for FuncType Sort Prop
with Spec_mind := Induction for Spec Sort Prop
with Decl_mind := Induction for Decl Sort Prop
with Stmt_mind := Induction for Stmt Sort Prop
with BlockStmt_mind := Induction for BlockStmt Sort Prop
with File_mind := Induction for File Sort Prop
with Node_mind := Induction for Node Sort Prop.

Combined Scheme syntax_mutind from Expr_mind, Field_mind, FieldList_mind,
  FuncType_mind, Spec_mind, Decl_mind, Stmt_mind, BlockStmt_mind, File_mind,
  Node_mind.

Definition Field_Names (f : Field) : list Ident := let 'mkField n _ _ := f in n.
Definition Field_Type (f : Field) : option Expr := let 'mkField _ t _ := f in t.
Definition Field_Tag (f : Field) : option BasicLit := let 'mkField _ _ t := f in t.
Definition FieldList_List (l : FieldList) : list Field := let 'mkFieldList _ l _ := l in l.
Definition FuncType_Params (t : FuncType) : option FieldList :=
  let 'mkFuncType _ _ p _ := t in p.
Definition FuncType_Results (t : FuncType) : option FieldList :=
  let 'mkFuncType _ _ _ r := t in r.

(** *** Positions: the [Pos()] and [End()] methods *)

Definition strlen (s : string) : Z := Z.of_nat (String.length s).

Definition Ident_Pos (x : Ident) : Pos := NamePos x.
Definition Ident_End (x : Ident) : Pos := NamePos x + strlen (Name x).
Definition BasicLit_Pos (x : BasicLit) : Pos := ValuePos x.
Definition BasicLit_End (x : BasicLit) : Pos := ValuePos x + strlen (Value x).

Definition Expr_Pos (e : Expr) : Pos :=
  match e with
  | Ident_ x => Ident_Pos x
  | BasicLit_ x => BasicLit_Pos x
  | ArrayType Lbrack _ _ => Lbrack
  | StructType Struct _ => Struct
  | OtherExpr From _ _ => From
  end.

Fixpoint Expr_End (e : Expr) : Pos :=
  match e with
  | Ident_ x => Ident_End x
  | BasicLit_ x => BasicLit_End x
  | ArrayType _ _ Elt => Expr_End Elt
  | StructType _ Fields => FieldList_End Fields
  | OtherExpr _ To _ => To
  end
with FieldList_End (l : FieldList) : Pos :=
  match l with
  | mkFieldList _ fields Closing =>
      if IsValid Closing then Closing + 1
      else (fix lastEnd (fs : list Field) : Pos :=
              match fs with
              | [] => NoPos
              | [f] => Field_End f
              | _ :: r => lastEnd r
              end) fields
  end
with Field_End (f : Field) : Pos :=
  match f with
  | mkField Names Type_ Tag =>
      match Tag with
      | Some tag => BasicLit_End tag
      | None =>
          match Type_ with
          | Some t => Expr_End t
          | None => match rev Names with
                    | x :: _ => Ident_End x
                    | [] => NoPos
                    end
          end
      end
  end.

(** ** Package [analysis]: diagnostics and the pass *)

(** [analysis.Diagnostic]; [Related] is always nil. *)
Record Diagnostic : Type := mkDiagnostic {
  Diag_Pos : Pos; Diag_End : Pos; Category : string; Message : string }.

(** How a computation of the analyzer ends: with a value, or with a Go
    run-time panic. *)
Inductive Outcome (A : Type) : Type :=
| Returns (a : A)
| Panics (why : string).
Arguments Returns {A} a.
Arguments Panics {A} why.

(** A computation: the diagnostics it passed to [pass.Report], in order,
    and how it ended. *)
Definition M (A : Type) : Type := list Diagnostic * Outcome A.

Definition ret {A} (a : A) : M A := ([], Returns a).

Definition bind {A B} (m : M A) (k : A -> M B) : M B :=
  match m with
  | (ds, Returns a) => let '(ds', o) := k a in (ds ++ ds', o)
  | (ds, Panics why) => (ds, Panics why)
  end.

Definition Report (d : Diagnostic) : M unit := ([d], Returns tt).
Definition panic {A} (why : string) : M A := ([], Panics why).

Definition reports {A} (m : M A) : list Diagnostic := fst m.
Definition outcome {A} (m : M A) : Outcome A := snd m.

(** A computation that reports nothing. *)
Definition quiet {A} (m : M A) : Prop := reports m = [].

(** A computation whose reports all satisfy [P]. *)
Definition every {A} (P : Diagnostic -> Prop) (m : M A) : Prop :=
  Forall P (reports m).

Declare Scope go_scope.
Delimit Scope go_scope with go.
Notation "x <- m ;; k" := (bind m (fun x => k))
  (at level 61, m at next level, right associativity) : go_scope.
Notation "m ;; k" := (bind m (fun _ => k))
  (at level 61, right associativity) : go_scope.
Local Open Scope go_scope.

(** A [for ... range] loop whose body may return from the enclosing
    function: the body gives [Some b] for [return b] and [None] to go on
    with the next element; so does the loop. *)
Fixpoint forRange {A} (l : list A) (body : A -> M (option bool)) : M (option bool) :=
  match l with
  | [] => ret None
  | x :: r =>
      o <- body x ;;
      match o with
      | Some b => ret (Some b)
      | None => forRange r body
      end
  end.

(** A loop whose body does not return from the enclosing function. *)
Definition forEach {A} (f : A -> M unit) : list A -> M unit :=
  fix go (l : list A) : M unit :=
    match l with
    | [] => ret tt
    | x :: r => f x ;; go r
    end.

(** The text of the run-time panic at a nil pointer. *)
Definition nilDereference : string :=
  "runtime error: invalid memory address or nil pointer dereference".

(** *** [ast.Inspect] *)

Section Inspect.

(** The callback [f]; [None] is the nil node it gets after the children. *)
Variable f : option Node -> M bool.

(** [Walk] on a node: [f] on the node and, if it says true, the walk of the
    children followed by [f(nil)]. *)
Definition visiting (n : Node) (children : M unit) : M unit :=
  b <- f (Some n) ;;
  if b then children ;; f None ;; ret tt else ret tt.

Definition walkOpt {A} (walk : A -> M unit) (o : option A) : M unit :=
  match o with
  | Some a => walk a
  | None => ret tt
  end.

(** [Walk] on a nil interface: [f(nil)], and unless it says false the
    type switch of [Walk] has no case for the node. *)
Definition walkNil : M unit :=
  b <- f None ;;
  if b then panic "ast.Walk: unexpected node type <nil>" else ret tt.

Definition WalkIdent (x : Ident) : M unit := visiting (NExpr (Ident_ x)) (ret tt).
Definition WalkBasicLit (x : BasicLit) : M unit := visiting (NExpr (BasicLit_ x)) (ret tt).

Fixpoint WalkExpr (e : Expr) : M unit :=
  visiting (NExpr e)
    match e with
    | Ident_ _ | BasicLit_ _ => ret tt
    | ArrayType _ Len Elt => walkOpt WalkExpr Len ;; WalkExpr Elt
    | StructType _ Fields => WalkFieldList Fields
    | OtherExpr _ _ children => forEach WalkNode children
    end
with WalkField (fd : Field) : M unit :=
  visiting (NField fd)
    match fd with
    | mkField Names Type_ Tag =>
        forEach WalkIdent Names ;; walkOpt WalkExpr Type_ ;; walkOpt WalkBasicLit Tag
    end
with WalkFieldList (l : FieldList) : M unit :=
  visiting (NFieldList l)
    match l with
    | mkFieldList _ fields _ => forEach WalkField fields
    end
with WalkFuncType (t : FuncType) : M unit :=
  visiting (NFuncType t)
    match t with
    | mkFuncType _ TypeParams Params Results =>
        walkOpt WalkFieldList TypeParams ;;
        walkOpt WalkFieldList Params ;;
        walkOpt WalkFieldList Results
    end
with WalkSpec (s : Spec) : M unit :=
  visiting (NSpec s)
    match s with
    | ImportSpec Name_ Path => walkOpt WalkIdent Name_ ;; WalkBasicLit Path
    | ValueSpec Names Type_ Values =>
        forEach WalkIdent Names ;; walkOpt WalkExpr Type_ ;; forEach WalkExpr Values
    | TypeSpec Name_ TypeParams Type_ =>
        WalkIdent Name_ ;;
        walkOpt WalkFieldList TypeParams ;;
        match Type_ with
        | Some t => WalkExpr t
        | None => walkNil
        end
    end
with WalkDecl (d : Decl) : M unit :=
  visiting (NDecl d)
    match d with
    | BadDecl => ret tt
    | GenDecl _ Specs => forEach WalkSpec Specs
    | FuncDecl Recv Name_ Type_ Body =>
        walkOpt WalkFieldList Recv ;;
        WalkIdent Name_ ;;
        match Type_ with
        | Some t => WalkFuncType t
        | None => visiting NilFuncType (panic nilDereference)
        end ;;
        walkOpt WalkBlockStmt Body
    end
with WalkStmt (s : Stmt) : M unit :=
  match s with
  | Block b => WalkBlockStmt b
  | DeclStmt d => visiting (NStmt s) (WalkDecl d)
  | OtherStmt children => visiting (NStmt s) (forEach WalkNode children)
  end
with WalkBlockStmt (b : BlockStmt) : M unit :=
  visiting (NBlockStmt b)
    match b with
    | mkBlockStmt stmts => forEach WalkStmt stmts
    end
with WalkFile (fl : File) : M unit :=
  visiting (NFile fl)
    match fl with
    | mkFile Name_ Decls => WalkIdent Name_ ;; forEach WalkDecl Decls
    end
with WalkNode (n : Node) : M unit :=
  match n with
  | NExpr e => WalkExpr e
  | NField fd => WalkField fd
  | NFieldList l => WalkFieldList l
  | NFuncType t => WalkFuncType t
  | NSpec s => WalkSpec s
  | NDecl d => WalkDecl d
  | NStmt s => WalkStmt s
  | NBlockStmt b => WalkBlockStmt b
  | NFile fl => WalkFile fl
  | NilFuncType => visiting NilFuncType (panic nilDereference)
  end.

(** [ast.Inspect(node, f)]. *)
Definition Inspect (n : Node) : M unit := WalkNode n.

End Inspect.

(** ** The analyzer *)

Record Settings : Type := mkSettings { Names : list string }.

Record FloatMoney : Type := mkFloatMoney { settings : Settings }.

Definition dquote : string := String (ascii_of_nat 34) EmptyString.

Definition advice : string := "use https://github.com/shopspring/decimal instead".

(** The seven message templates of [run], [fmt.Sprintf] applied. *)
Definition msgDeclType (name : string) : string :=
  ("a declaration with a suspicious money-related name has " ++ name ++ " type. "
   ++ advice)%string.
Definition msgDeclValue (value : string) : string :=
  ("a declaration with a suspicious money-related name has a float value of "
   ++ dquote ++ value ++ dquote ++ ". " ++ advice)%string.
Definition msgAlias (name : string) : string :=
  ("a type with a suspicious money-related name is an alias to " ++ name ++ ". "
   ++ advice)%string.
Definition msgStructField (name : string) : string :=
  ("a struct type with a suspicious money-related name has a field of " ++ name
   ++ " type. " ++ advice)%string.
Definition msgParam (name : string) : string :=
  ("a function with a suspicious money-related name has a parameter of " ++ name
   ++ " type. " ++ advice)%string.
Definition msgResult (name : string) : string :=
  ("a function with a suspicious money-related name has a return value of " ++ name
   ++ " type. " ++ advice)%string.
Definition msgField (name : string) : string :=
  ("a field with a suspicious money-related name has " ++ name ++ " type. "
   ++ advice)%string.

(** The diagnostic of every report: the span of [n], category "floatmoney". *)
Definition diag (pos end_ : Pos) (message : string) : Diagnostic :=
  mkDiagnostic pos end_ "floatmoney" message.

Definition diagIdent (typ : Ident) (message : string) : Diagnostic :=
  diag (Ident_Pos typ) (Ident_End typ) message.

Definition isFloatTypeName (typ : string) : bool :=
  existsb (String.eqb typ) ["float32"; "float64"].

Definition getInnerFloat (typ : option Expr) : option Ident :=
  match typ with
  | Some (Ident_ typ) => if isFloatTypeName (Name typ) then Some typ else None
  | Some (ArrayType _ _ (Ident_ eltTyp)) =>
      if isFloatTypeName (Name eltTyp) then Some eltTyp else None
  | _ => None
  end.

Section Analyzer.

Context {go : GoLib}.

Fixpoint isSuspicious (target : list string) (name : string) : bool :=
  match target with
  | [] => false
  | t :: target' =>
      if strings.Contains (ToLower name) (ToLower t) then true
      else isSuspicious target' name
  end.

Fixpoint intersects (target : list string) (search : list string) : bool :=
  match search with
  | [] => false
  | s :: search' =>
      if isSuspicious target s then true else intersects target search'
  end.

Definition isFloatExpr (expr : Expr) : bool :=
  match expr with
  | BasicLit_ expr =>
      match snd (ParseInt (Value expr) 0 64) with
      | None => false
      | Some _ =>
          match ParseFloat_err (Value expr) 64 with
          | None => true
          | Some _ => false
          end
      end
  | _ => false
  end.

Variable f : FloatMoney.

Definition watchlist : list string := Names (settings f).

(** The body of the loop over the specs of a [var] or [const] declaration. *)
Definition valueSpec (spec : Spec) : M (option bool) :=
  match spec with
  | ValueSpec Names Type_ Values =>
      let expr := match getInnerFloat Type_ with
                  | Some ident => Some (Ident_ ident)
                  | None => find isFloatExpr Values
                  end in
      match expr with
      | None => ret (Some true)
      | Some expr =>
          let names := map Name Names in
          if intersects watchlist names then
            match expr with
            | Ident_ expr =>
                Report (diagIdent expr (msgDeclType (Name expr))) ;; ret None
            | BasicLit_ expr =>
                Report (diag (BasicLit_Pos expr) (BasicLit_End expr)
                          (msgDeclValue (Value expr))) ;; ret None
            | _ => ret None
            end
          else ret None
      end
  | _ => panic "interface conversion: ast.Spec is not *ast.ValueSpec"
  end.

(** The body of the loop over the fields of a struct type. *)
Definition structField (field : Field) : M (option bool) :=
  match getInnerFloat (Field_Type field) with
  | None => ret (Some true)
  | Some typ => Report (diagIdent typ (msgStructField (Name typ))) ;; ret None
  end.

(** The body of the loop over the specs of a [type] declaration. *)
Definition typeSpec (spec : Spec) : M (option bool) :=
  match spec with
  | TypeSpec Name_ _ Type_ =>
      if negb (isSuspicious watchlist (Name Name_)) then ret (Some true)
      else
        match Type_ with
        | Some (Ident_ typ) =>
            match getInnerFloat (Some (Ident_ typ)) with
            | Some typ => Report (diagIdent typ (msgAlias (Name typ))) ;; ret None
            | None => ret None
            end
        | Some (ArrayType _ _ _ as typ) =>
            (* [if typ != nil]: [typ] is the array type, never nil *)
            match getInnerFloat (Some typ) with
            | Some innerFloat =>
                Report (diag (Expr_Pos typ) (Expr_End typ) (msgAlias (Name innerFloat))) ;;
                ret None
            | None => panic nilDereference
            end
        | Some (StructType _ Fields) => forRange (FieldList_List Fields) structField
        | _ => ret None
        end
  | _ => panic "interface conversion: ast.Spec is not *ast.TypeSpec"
  end.

Definition genDecl (Tok : Token) (Specs : list Spec) : M (option bool) :=
  match Tok with
  | VAR | CONST => forRange Specs valueSpec
  | TYPE => forRange Specs typeSpec
  | _ => ret (Some true)
  end.

(** The bodies of the loops over the parameters and over the results of a
    function declaration named [fname]. *)
Definition funcField (message : string -> string) (fname : string) (field : Field)
  : M (option bool) :=
  match getInnerFloat (Field_Type field) with
  | None => ret (Some true)
  | Some typ =>
      let names := map Name (Field_Names field) in
      if isSuspicious watchlist fname || intersects watchlist names
      then Report (diagIdent typ (message (Name typ))) ;; ret None
      else ret None
  end.

Definition funcParam : string -> Field -> M (option bool) := funcField msgParam.
Definition funcResult : string -> Field -> M (option bool) := funcField msgResult.

Definition forFields (l : option FieldList) (body : Field -> M (option bool))
  : M (option bool) :=
  match l with
  | Some l => forRange (FieldList_List l) body
  | None => ret None
  end.

Definition funcDecl (Name_ : Ident) (Type_ : option FuncType) : M (option bool) :=
  match Type_ with
  | None => ret (Some true)
  | Some typ =>
      o <- forFields (FuncType_Params typ) (funcParam (Name Name_)) ;;
      match o with
      | Some b => ret (Some b)
      | None => forFields (FuncType_Results typ) (funcResult (Name Name_))
      end
  end.

Definition field (n : Field) : M (option bool) :=
  match getInnerFloat (Field_Type n) with
  | None => ret (Some true)
  | Some typ =>
      let names := map Name (Field_Names n) ++
                   match Field_Tag n with
                   | Some tag => [Value tag]
                   | None => []
                   end in
      if intersects watchlist names
      then Report (diagIdent typ (msgField (Name typ))) ;; ret None
      else ret None
  end.

(** The function literal that [run] passes to [ast.Inspect]. *)
Definition callback (n : option Node) : M bool :=
  o <- match n with
       | Some (NDecl (GenDecl Tok Specs)) => genDecl Tok Specs
       | Some (NDecl (FuncDecl _ Name_ Type_ _)) => funcDecl Name_ Type_
       | Some (NField n) => field n
       | _ => ret None
       end ;;
  match o with
  | Some b => ret b
  | None => ret true
  end.

(** [run]: every file of the pass is inspected. *)
Definition run (Files : list File) : M unit :=
  forEach (fun file => Inspect callback (NFile file)) Files.

End Analyzer.

(** ** What the specification says, in its own words *)

(** [sub] occurs in [s] as a substring. *)
Definition Substring (sub s : string) : Prop :=
  exists pre post : string, s = (pre ++ sub ++ post)%string.

(** A field of a parameter or result list whose type resolves to a float. *)
Definition resolves (fd : Field) : bool :=
  match getInnerFloat (Field_Type fd) with
  | Some _ => true
  | None => false
  end.

(** The fields of a list that come before the first one whose type does not
    resolve. *)
Fixpoint examined (l : list Field) : list Field :=
  match l with
  | [] => []
  | fd :: r => if resolves fd then fd :: examined r else []
  end.

Definition fieldsOf (l : option FieldList) : list Field :=
  match l with
  | Some l => FieldList_List l
  | None => []
  end.

(** The finding of the function rule for one field of the function
    [fname]: on the resolved type of the field, when the name of the function
    or a name of the field is suspicious. *)
Definition funcFinding {go : GoLib} (f : FloatMoney) (message : string -> string)
  (fname : string) (fd : Field) : list Diagnostic :=
  match getInnerFloat (Field_Type fd) with
  | Some typ =>
      if isSuspicious (watchlist f) fname ||
         intersects (watchlist f) (map Name (Field_Names fd))
      then [diagIdent typ (message (Name typ))]
      else []
  | None => []
  end.

(** ** Example programs *)

Definition ident (pos : Pos) (name : string) : Ident := mkIdent pos name.

Definition typed (pos : Pos) (name : string) : option Expr :=
  Some (Ident_ (ident pos name)).

(** A result list without parentheses. *)
Definition bare (pos : Pos) (name : string) : option FieldList :=
  Some (mkFieldList NoPos [mkField [] (typed pos name) None] NoPos).

Definition lint (names : list string) : FloatMoney := mkFloatMoney (mkSettings names).

(** [package p; func Convert(money float64) int] *)
Definition convertFile : File :=
  mkFile (ident 9 "p")
    [FuncDecl None (ident 17 "Convert")
       (Some (mkFuncType 12 None
          (Some (mkFieldList 24 [mkField [ident 25 "money"] (typed 31 "float64") None] 38))
          (bare 40 "int")))
       None].

(** [package p; func MoneyConvert(x float64) int] *)
Definition moneyConvertFile : File :=
  mkFile (ident 9 "p")
    [FuncDecl None (ident 17 "MoneyConvert")
       (Some (mkFuncType 12 None
          (Some (mkFieldList 29 [mkField [ident 30 "x"] (typed 32 "float64") None] 39))
          (bare 41 "int")))
       None].

(** [func MoneyConvert(a float64, b float32) int] *)
Definition twoParams : Decl :=
  FuncDecl None (ident 17 "MoneyConvert")
    (Some (mkFuncType 12 None
       (Some (mkFieldList 29 [mkField [ident 30 "a"] (typed 32 "float64") None;
                              mkField [ident 41 "b"] (typed 43 "float32") None] 50))
       (bare 52 "int")))
    None.

(** [func MoneyConvert(x int) float64] *)
Definition floatResult : Decl :=
  FuncDecl None (ident 17 "MoneyConvert")
    (Some (mkFuncType 12 None
       (Some (mkFieldList 29 [mkField [ident 30 "x"] (typed 32 "int") None] 35))
       (bare 37 "float64")))
    None.

(** [package p; type Amount struct { Value float64; Currency string }],
    one field a line. *)
Definition amountFile : File :=
  mkFile (ident 9 "p")
    [GenDecl TYPE
       [TypeSpec (ident 17 "Amount") None
          (Some (StructType 24
             (mkFieldList 31
                [mkField [ident 34 "Value"] (typed 40 "float64") None;
                 mkField [ident 49 "Currency"] (typed 58 "string") None]
                65)))]].

(** [package p; const total = 18446744073709551615]: the literal, an
    integer literal of Go (the largest [uint64]), is at 26..46. *)
Definition wideTotalFile : File :=
  mkFile (ident 9 "p")
    [GenDecl CONST
       [ValueSpec [ident 18 "total"] None
          [BasicLit_ (mkBasicLit 26 INT "18446744073709551615")]]].

(** [package p; type Price []elt]: the element type [elt] starts at
    position 25, the bracket is at 23. *)
Definition priceFile (elt : string) : File :=
  mkFile (ident 9 "p")
    [GenDecl TYPE
       [TypeSpec (ident 17 "Price") None
          (Some (ArrayType 23 None (Ident_ (ident 25 elt))))]].

(** ** The plugin: [New], [BuildAnalyzers], [GetLoadMode] and [main.New] *)

(** [analysis.Analyzer], with the fields the plugin sets; [Run] takes the
    files of the pass and reports through the pass. *)
Record Analyzer : Type := mkAnalyzer {
  Analyzer_Name : string; Doc : string; Run : list File -> M unit }.

Section Plugin.

Context {go : GoLib}.

(** The configuration payload ([any]) and Go's [error]. *)
Variable Any : Type.
Variable error : Type.

(** [register.DecodeSettings[Settings]]: the settings, or the error. *)
Variable DecodeSettings : Any -> Settings + error.

(** [register.LoadModeSyntax]. *)
Variable LoadModeSyntax : string.

Definition New (settings : Any) : FloatMoney + error :=
  match DecodeSettings settings with
  | inr err => inr err
  | inl s => inl (mkFloatMoney s)
  end.

Definition BuildAnalyzers (f : FloatMoney) : list Analyzer + error :=
  inl [mkAnalyzer "floatmoney"
         "finds suspicious float variables with money-related names" (run f)].

Definition GetLoadMode (f : FloatMoney) : string := LoadModeSyntax.

(** [New] of package [main]. *)
Definition main_New (settings : Any) : list Analyzer + error :=
  match New settings with
  | inr err => inr err
  | inl plugin => BuildAnalyzers plugin
  end.

End Plugin.

(** ** Words for the rules of the callback *)

(** The elements of a list before the first that misses [hit]. *)
Fixpoint leading {A} (hit : A -> bool) (l : list A) : list A :=
  match l with
  | [] => []
  | x :: r => if hit x then x :: leading hit r else []
  end.

Definition isValueSpec (spec : Spec) : bool :=
  match spec with
  | ValueSpec _ _ _ => true
  | _ => false
  end.

(** What a value spec is judged by: its declared type when that resolves,
    else its first initializer that is a float literal. *)
Definition floatOf {go : GoLib} (spec : Spec) : option Expr :=
  match spec with
  | ValueSpec _ Type_ Values =>
      match getInnerFloat Type_ with
      | Some ident => Some (Ident_ ident)
      | None => find isFloatExpr Values
      end
  | _ => None
  end.

Definition hasFloat {go : GoLib} (spec : Spec) : bool :=
  match floatOf spec with
  | Some _ => true
  | None => false
  end.

Definition specNames (spec : Spec) : list string :=
  match spec with
  | ValueSpec Names _ _ => map Name Names
  | _ => []
  end.

(** The finding of the value rule for one spec. *)
Definition valueFinding {go : GoLib} (f : FloatMoney) (spec : Spec) : list Diagnostic :=
  if intersects (watchlist f) (specNames spec) then
    match floatOf spec with
    | Some (Ident_ x) => [diagIdent x (msgDeclType (Name x))]
    | Some (BasicLit_ x) =>
        [diag (BasicLit_Pos x) (BasicLit_End x) (msgDeclValue (Value x))]
    | _ => []
    end
  else [].

(** The finding of the struct rule for one field. *)
Definition structFinding (fd : Field) : list Diagnostic :=
  match getInnerFloat (Field_Type fd) with
  | Some typ => [diagIdent typ (msgStructField (Name typ))]
  | None => []
  end.

(** The names the field rule looks at: the names of the field and the text
    of its tag. *)
Definition fieldNames (fd : Field) : list string :=
  map Name (Field_Names fd) ++
  match Field_Tag fd with
  | Some tag => [Value tag]
  | None => []
  end.

(** A diagnostic that is about a float: category "floatmoney", and as its
    message one of the six templates on a float type name, or the template
    for values on a literal that is a float expression, with the span of
    that literal. *)
Definition aboutFloat {go : GoLib} (d : Diagnostic) : Prop :=
  Category d = "floatmoney" /\
  ((exists typ, isFloatTypeName typ = true /\
      In (Message d) [msgDeclType typ; msgAlias typ; msgStructField typ;
                      msgParam typ; msgResult typ; msgField typ]) \/
   (exists lit, isFloatExpr (BasicLit_ lit) = true /\
      d = diag (BasicLit_Pos lit) (BasicLit_End lit) (msgDeclValue (Value lit)))).

(** *** Trees as the parser builds them *)

(** A spec of the kind its declaration asks for, and, under [type], not an
    array type that does not resolve to a float. *)
Definition specFits (Tok : Token) (spec : Spec) : bool :=
  match Tok with
  | VAR | CONST => isValueSpec spec
  | TYPE =>
      match spec with
      | TypeSpec _ _ (Some (ArrayType _ _ _ as typ)) =>
          match getInnerFloat (Some typ) with
          | Some _ => true
          | None => false
          end
      | TypeSpec _ _ _ => true
      | _ => false
      end
  | _ => true
  end.

(** The whole tree: every general declaration has fitting specs, and every
    type spec and function declaration has its [Type]. *)
Fixpoint okExpr (e : Expr) : bool :=
  match e with
  | Ident_ _ | BasicLit_ _ => true
  | ArrayType _ Len Elt =>
      match Len with Some l => okExpr l | None => true end && okExpr Elt
  | StructType _ Fields => okFieldList Fields
  | OtherExpr _ _ children => forallb okNode children
  end
with okField (fd : Field) : bool :=
  match fd with
  | mkField _ Type_ _ => match Type_ with Some t => okExpr t | None => true end
  end
with okFieldList (l : FieldList) : bool :=
  match l with
  | mkFieldList _ fields _ => forallb okField fields
  end
with okFuncType (t : FuncType) : bool :=
  match t with
  | mkFuncType _ TypeParams Params Results =>
      match TypeParams with Some l => okFieldList l | None => true end &&
      match Params with Some l => okFieldList l | None => true end &&
      match Results with Some l => okFieldList l | None => true end
  end
with okSpec (s : Spec) : bool :=
  match s with
  | ImportSpec _ _ => true
  | ValueSpec _ Type_ Values =>
      match Type_ with Some t => okExpr t | None => true end &&
      forallb okExpr Values
  | TypeSpec _ TypeParams Type_ =>
      match TypeParams with Some l => okFieldList l | None => true end &&
      match Type_ with Some t => okExpr t | None => false end
  end
with okDecl (d : Decl) : bool :=
  match d with
  | BadDecl => true
  | GenDecl Tok Specs => forallb (specFits Tok) Specs && forallb okSpec Specs
  | FuncDecl Recv _ Type_ Body =>
      match Recv with Some l => okFieldList l | None => true end &&
      match Type_ with Some t => okFuncType t | None => false end &&
      match Body with Some b => okBlockStmt b | None => true end
  end
with okStmt (s : Stmt) : bool :=
  match s with
  | Block b => okBlockStmt b
  | DeclStmt d => okDecl d
  | OtherStmt children => forallb okNode children
  end
with okBlockStmt (b : BlockStmt) : bool :=
  match b with
  | mkBlockStmt stmts => forallb okStmt stmts
  end
with okFile (fl : File) : bool :=
  match fl with
  | mkFile _ Decls => forallb okDecl Decls
  end
with okNode (n : Node) : bool :=
  match n with
  | NExpr e => okExpr e
  | NField fd => okField fd
  | NFieldList l => okFieldList l
  | NFuncType t => okFuncType t
  | NSpec s => okSpec s
  | NDecl d => okDecl d
  | NStmt s => okStmt s
  | NBlockStmt b => okBlockStmt b
  | NFile fl => okFile fl
  | NilFuncType => false
  end.

(* ================================================================== *)
(** * Part II: properties *)
(* ================================================================== *)

(** ** Strings *)

Lemma prefix_append (a b : string) :
  String.prefix a b = true <-> exists r, b = (a ++ r)%string.
Proof.
  revert b; induction a as [|c a IH]; intros b; simpl.
  - split; [intros _; now exists b | destruct b; reflexivity].
  - destruct b as [|c' b]; simpl.
    + split; [discriminate | intros [r Hr]; discriminate].
    + destruct (ascii_dec c c') as [->|Hne].
      * rewrite IH. split; intros [r Hr]; exists r; congruence.
      * split; [discriminate | intros [r Hr]; congruence].
Qed.

Lemma Contains_nil (sub : string) :
  strings.Contains "" sub = String.prefix sub "".
Proof. simpl. now destruct sub. Qed.

Lemma Contains_cons (c : ascii) (s sub : string) :
  strings.Contains (String c s) sub =
  if String.prefix sub (String c s) then true else strings.Contains s sub.
Proof. reflexivity. Qed.

Lemma Contains_Substring (s sub : string) :
  strings.Contains s sub = true <-> Substring sub s.
Proof.
  induction s as [|c s IH].
  - rewrite Contains_nil, prefix_append. split.
    + intros [r Hr]. now exists "", r.
    + intros [pre [post H]]. destruct pre; [|discriminate]. now exists post.
  - rewrite Contains_cons.
    destruct (String.prefix sub (String c s)) eqn:Hp.
    + split; [intros _ | reflexivity].
      apply prefix_append in Hp as [r Hr]. now exists "", r.
    + rewrite IH. split.
      * intros [pre [post H]]. exists (String c pre), post. simpl. now rewrite H.
      * intros [pre [post H]]. destruct pre as [|c' pre]; simpl in H.
        -- assert (String.prefix sub (String c s) = true)
             by (apply prefix_append; now exists post).
           congruence.
        -- exists pre, post. congruence.
Qed.

Lemma Contains_empty (sub : string) :
  strings.Contains "" sub = true <-> sub = "".
Proof.
  rewrite Contains_nil. destruct sub; simpl; split; congruence.
Qed.

(** ** The name matcher *)

Section Matcher.

Context {go : GoLib}.

Lemma isSuspicious_true (target : list string) (name : string) :
  isSuspicious target name = true <->
  exists t, In t target /\ strings.Contains (ToLower name) (ToLower t) = true.
Proof.
  induction target as [|t target IH]; simpl.
  - split; [discriminate | intros [t [[] _]]].
  - destruct (strings.Contains (ToLower name) (ToLower t)) eqn:Hc.
    + split; [intros _; exists t; auto | reflexivity].
    + rewrite IH. split; intros [t' [Hin Ht']].
      * exists t'; auto.
      * destruct Hin as [<-|Hin]; [congruence | exists t'; auto].
Qed.

Lemma intersects_true (target search : list string) :
  intersects target search = true <->
  exists s, In s search /\ isSuspicious target s = true.
Proof.
  induction search as [|s search IH]; simpl.
  - split; [discriminate | intros [s [[] _]]].
  - destruct (isSuspicious target s) eqn:Hs.
    + split; [intros _; exists s; auto | reflexivity].
    + rewrite IH. split; intros [s' [Hin Hs']].
      * exists s'; auto.
      * destruct Hin as [<-|Hin]; [congruence | exists s'; auto].
Qed.

Lemma intersects_nil (search : list string) : intersects [] search = false.
Proof. induction search; simpl; auto. Qed.

End Matcher.

(** ** Type resolution *)

Lemma isFloatTypeName_true (typ : string) :
  isFloatTypeName typ = true <-> typ = "float32" \/ typ = "float64".
Proof.
  unfold isFloatTypeName; simpl.
  rewrite !orb_true_iff, !String.eqb_eq. intuition discriminate.
Qed.

(** ** Computations: reports and outcomes *)

Lemma reports_bind {A B} (m : M A) (k : A -> M B) :
  reports (bind m k) =
  reports m ++ match outcome m with
               | Returns a => reports (k a)
               | Panics _ => []
               end.
Proof.
  destruct m as [ds [a|why]]; simpl.
  - now destruct (k a).
  - now rewrite app_nil_r.
Qed.

Lemma outcome_bind {A B} (m : M A) (k : A -> M B) :
  outcome (bind m k) =
  match outcome m with
  | Returns a => outcome (k a)
  | Panics why => Panics why
  end.
Proof.
  destruct m as [ds [a|why]]; simpl; [now destruct (k a) | reflexivity].
Qed.

Lemma quiet_ret {A} (a : A) : quiet (ret a).
Proof. reflexivity. Qed.

Lemma quiet_panic {A} (why : string) : quiet (@panic A why).
Proof. reflexivity. Qed.

Lemma quiet_bind {A B} (m : M A) (k : A -> M B) :
  quiet m -> (forall a, quiet (k a)) -> quiet (bind m k).
Proof.
  unfold quiet; intros Hm Hk. rewrite reports_bind, Hm.
  destruct (outcome m); simpl; auto.
Qed.

Lemma quiet_forRange {A} (l : list A) (body : A -> M (option bool)) :
  (forall x, quiet (body x)) -> quiet (forRange l body).
Proof.
  intros Hb; induction l as [|x l IH]; simpl.
  - apply quiet_ret.
  - apply quiet_bind; [apply Hb | intros [b|]; [apply quiet_ret | exact IH]].
Qed.

Lemma quiet_forEach {A} (walk : A -> M unit) (l : list A) :
  (forall x, quiet (walk x)) -> quiet (forEach walk l).
Proof.
  intros Hw; induction l as [|x l IH]; simpl.
  - apply quiet_ret.
  - apply quiet_bind; [apply Hw | intros _; exact IH].
Qed.

Lemma quiet_forEach_all {A} (walk : A -> M unit) (l : list A) :
  list_all A (fun x => quiet (walk x)) l -> quiet (forEach walk l).
Proof.
  induction 1 as [|x Hx l Hl IH]; simpl.
  - apply quiet_ret.
  - apply quiet_bind; [exact Hx | intros _; exact IH].
Qed.

Lemma quiet_walkOpt_all {A} (walk : A -> M unit) (o : option A) :
  option_all A (fun x => quiet (walk x)) o -> quiet (walkOpt walk o).
Proof.
  destruct 1; simpl; [assumption | apply quiet_ret].
Qed.

(** ** The traversal *)

Section InspectQuiet.

Variable f : option Node -> M bool.
Hypothesis f_quiet : forall n, quiet (f n).

Lemma quiet_visiting (n : Node) (children : M unit) :
  quiet children -> quiet (visiting f n children).
Proof.
  intros Hc. unfold visiting.
  apply quiet_bind; [apply f_quiet | intros [|]; [|apply quiet_ret]].
  apply quiet_bind; [exact Hc | intros _].
  apply quiet_bind; [apply f_quiet | intros _; apply quiet_ret].
Qed.

Lemma quiet_WalkIdent (x : Ident) : quiet (WalkIdent f x).
Proof. apply quiet_visiting, quiet_ret. Qed.

Lemma quiet_WalkBasicLit (x : BasicLit) : quiet (WalkBasicLit f x).
Proof. apply quiet_visiting, quiet_ret. Qed.

Lemma quiet_walkNil : quiet (walkNil f).
Proof.
  unfold walkNil. apply quiet_bind; [apply f_quiet|].
  intros [|]; [apply quiet_panic | apply quiet_ret].
Qed.

Ltac quiet_step :=
  first
    [ assumption
    | apply quiet_ret
    | apply quiet_panic
    | apply quiet_walkNil
    | apply quiet_WalkIdent
    | apply quiet_WalkBasicLit
    | apply quiet_visiting
    | apply quiet_bind; [|intros _]
    | apply quiet_forEach_all
    | apply quiet_walkOpt_all
    | apply list_all_forall; intros ?
    | apply option_all_forall; intros ?
    | match goal with
      | H : option_all _ _ ?o |- context [match ?o with _ => _ end] => destruct H
      end ].

(** A callback that reports nothing makes a traversal that reports nothing,
    whatever the tree. *)
Lemma quiet_Walk :
  (forall e, quiet (WalkExpr f e)) /\
  (forall fd, quiet (WalkField f fd)) /\
  (forall l, quiet (WalkFieldList f l)) /\
  (forall t, quiet (WalkFuncType f t)) /\
  (forall s, quiet (WalkSpec f s)) /\
  (forall d, quiet (WalkDecl f d)) /\
  (forall s, quiet (WalkStmt f s)) /\
  (forall b, quiet (WalkBlockStmt f b)) /\
  (forall fl, quiet (WalkFile f fl)) /\
  (forall n, quiet (WalkNode f n)).
Proof.
  apply syntax_mutind; intros; simpl; repeat quiet_step.
Qed.

Lemma quiet_Inspect (n : Node) : quiet (Inspect f n).
Proof. apply quiet_Walk. Qed.

End InspectQuiet.

(** ** The callback *)

Section AnalyzerProps.

Context {go : GoLib}.
Variable f : FloatMoney.

Lemma funcField_eq (message : string -> string) (fname : string) (fd : Field) :
  funcField f message fname fd =
  (funcFinding f message fname fd,
   Returns (if resolves fd then None else Some true)).
Proof.
  unfold funcField, funcFinding, resolves.
  destruct (getInnerFloat (Field_Type fd)); [|reflexivity].
  destruct (_ || _); reflexivity.
Qed.

Lemma funcFinding_unresolved (message : string -> string) (fname : string)
  (fd : Field) :
  resolves fd = false -> funcFinding f message fname fd = [].
Proof.
  unfold funcFinding, resolves.
  destruct (getInnerFloat (Field_Type fd)); [discriminate | reflexivity].
Qed.

(** The loop of the function rule over a list of fields: a finding for each
    field up to the first that does not resolve, where the callback
    returns. *)
Lemma forRange_funcField (message : string -> string) (fname : string)
  (l : list Field) :
  forRange l (funcField f message fname) =
  (flat_map (funcFinding f message fname) (examined l),
   Returns (if forallb resolves l then None else Some true)).
Proof.
  induction l as [|fd l IH]; [reflexivity|].
  cbn [forRange examined forallb]. rewrite IH, funcField_eq.
  destruct (resolves fd) eqn:E; simpl.
  - reflexivity.
  - now rewrite (funcFinding_unresolved _ _ _ E).
Qed.

Lemma forFields_funcField (message : string -> string) (fname : string)
  (l : option FieldList) :
  forFields l (funcField f message fname) =
  (flat_map (funcFinding f message fname) (examined (fieldsOf l)),
   Returns (if forallb resolves (fieldsOf l) then None else Some true)).
Proof.
  destruct l as [l|]; [apply forRange_funcField | reflexivity].
Qed.

(** What the function rule does on a declaration with a signature. *)
Lemma funcDecl_eq (Name_ : Ident) (typ : FuncType) :
  funcDecl f Name_ (Some typ) =
  let params := fieldsOf (FuncType_Params typ) in
  let results := fieldsOf (FuncType_Results typ) in
  (flat_map (funcFinding f msgParam (Name Name_)) (examined params) ++
   (if forallb resolves params
    then flat_map (funcFinding f msgResult (Name Name_)) (examined results)
    else []),
   Returns (if forallb resolves params && forallb resolves results
            then None else Some true)).
Proof.
  unfold funcDecl, funcParam, funcResult. rewrite !forFields_funcField.
  destruct (forallb resolves (fieldsOf (FuncType_Params typ))); simpl.
  - reflexivity.
  - now rewrite app_nil_r.
Qed.

Lemma callback_FuncDecl (Recv : option FieldList) (Name_ : Ident)
  (Type_ : option FuncType) (Body : option BlockStmt) :
  callback f (Some (NDecl (FuncDecl Recv Name_ Type_ Body))) =
  (reports (funcDecl f Name_ Type_), Returns true).
Proof.
  unfold callback. destruct Type_ as [typ|]; [|reflexivity].
  rewrite funcDecl_eq. cbv zeta. simpl.
  destruct (forallb resolves (fieldsOf (FuncType_Params typ)) &&
            forallb resolves (fieldsOf (FuncType_Results typ)));
    simpl; now rewrite app_nil_r.
Qed.

(** The messages of the function rule tell a parameter from a result. *)
Lemma msgParam_msgResult (a b : string) : msgParam a <> msgResult b.
Proof. unfold msgParam, msgResult. simpl. congruence. Qed.

Lemma funcFinding_message (message : string -> string) (fname : string)
  (l : list Field) (d : Diagnostic) :
  In d (flat_map (funcFinding f message fname) l) ->
  exists typ, Message d = message typ.
Proof.
  rewrite in_flat_map. intros [fd [_ Hd]]. unfold funcFinding in Hd.
  destruct (getInnerFloat (Field_Type fd)) as [typ|]; [|destruct Hd].
  destruct (_ || _); [|destruct Hd].
  destruct Hd as [<-|[]]. now exists (Name typ).
Qed.

(** The callback never answers false: [ast.Inspect] goes down into every
    node. *)
Lemma forRange_true {A} (l : list A) (body : A -> M (option bool)) :
  (forall x b, outcome (body x) = Returns (Some b) -> b = true) ->
  forall b, outcome (forRange l body) = Returns (Some b) -> b = true.
Proof.
  intros Hb; induction l as [|x l IH]; intros b; simpl; [discriminate|].
  rewrite outcome_bind.
  destruct (outcome (body x)) as [[b'|]|why] eqn:E; simpl.
  - intros [= <-]. eauto.
  - apply IH.
  - discriminate.
Qed.

Lemma callback_true (n : option Node) (b : bool) :
  outcome (callback f n) = Returns b -> b = true.
Proof.
  destruct n as [[e|fd|l|t|s|[|Tok Specs|Recv Name_ Type_ Body]|s|b'|fl|]|];
    try (rewrite callback_FuncDecl; cbn; congruence);
    unfold callback; rewrite outcome_bind; simpl; try congruence.
  - unfold field. destruct (getInnerFloat (Field_Type fd)); simpl; [|congruence].
    destruct (intersects _ _); simpl; congruence.
  - destruct (outcome (genDecl f Tok Specs)) as [[b'|]|why] eqn:E; simpl;
      try congruence.
    intros [= <-]. revert E. unfold genDecl.
    assert (Hs : forall fd b, outcome (structField fd) = Returns (Some b) -> b = true).
    { intros fd b0. unfold structField.
      destruct (getInnerFloat (Field_Type fd)); simpl; congruence. }
    assert (Hv : forall spec b, outcome (valueSpec f spec) = Returns (Some b) -> b = true).
    { intros [|Names Type_ Values|] b0; simpl; try discriminate.
      destruct (match getInnerFloat Type_ with
                | Some ident => Some (Ident_ ident)
                | None => find isFloatExpr Values
                end) as [[x|x| | |]|]; simpl;
        try (destruct (intersects _ _); simpl); congruence. }
    assert (Ht : forall spec b, outcome (typeSpec f spec) = Returns (Some b) -> b = true).
    { intros [| |Name_ TypeParams Type_] b0; simpl; try discriminate.
      destruct (isSuspicious _ _); simpl; [|congruence].
      destruct Type_ as [[x| |Lbrack Len Elt|Struct Fields|]|]; simpl;
        try congruence.
      - destruct (isFloatTypeName (Name x)); simpl; congruence.
      - destruct Elt as [y| | | |]; simpl; try congruence.
        destruct (isFloatTypeName (Name y)); simpl; congruence.
      - apply forRange_true, Hs. }
    destruct Tok; simpl; try congruence; apply forRange_true; assumption.
Qed.

(** With nothing on the watchlist no rule reports. *)
Lemma quiet_callback (n : option Node) :
  watchlist f = [] -> quiet (callback f n).
Proof.
  intros Hw. unfold callback.
  apply quiet_bind; [|intros [b|]; apply quiet_ret].
  destruct n as [[e|fd|l|t|s|[|Tok Specs|Recv Name_ Type_ Body]|s|b|fl|]|];
    try apply quiet_ret.
  - unfold field. destruct (getInnerFloat (Field_Type fd)); [|apply quiet_ret].
    rewrite Hw, intersects_nil. apply quiet_ret.
  - assert (Hv : forall spec, quiet (valueSpec f spec)).
    { intros [| Names Type_ Values |]; try apply quiet_panic.
      unfold valueSpec.
      destruct (match getInnerFloat Type_ with
                | Some ident => Some (Ident_ ident)
                | None => find isFloatExpr Values
                end); [|apply quiet_ret].
      rewrite Hw, intersects_nil. apply quiet_ret. }
    assert (Ht : forall spec, quiet (typeSpec f spec)).
    { intros [| |Name_ TypeParams Type_]; try apply quiet_panic.
      unfold typeSpec. rewrite Hw. apply quiet_ret. }
    destruct Tok; simpl; try apply quiet_ret; now apply quiet_forRange.
  - unfold quiet. destruct Type_ as [typ|]; [|reflexivity].
    rewrite funcDecl_eq. cbv zeta. unfold reports, fst.
    assert (Hq : forall message l,
               flat_map (funcFinding f message (Name Name_)) l = []).
    { intros message l. induction l as [|fd l IH]; [reflexivity|].
      simpl. rewrite IH, app_nil_r. unfold funcFinding.
      destruct (getInnerFloat (Field_Type fd)); [|reflexivity].
      rewrite Hw, intersects_nil. reflexivity. }
    rewrite !Hq. now destruct (forallb _ _).
Qed.

End AnalyzerProps.

(** A suspicious type declaration whose right-hand side is an array that
    does not resolve: the message reads the [Name] of a nil identifier. *)
Lemma typeSpec_array_unresolved {go : GoLib} (f : FloatMoney) (Name_ : Ident)
  (TypeParams : option FieldList) (Lbrack : Pos) (Len : option Expr) (Elt : Expr) :
  isSuspicious (watchlist f) (Name Name_) = true ->
  getInnerFloat (Some (ArrayType Lbrack Len Elt)) = None ->
  typeSpec f (TypeSpec Name_ TypeParams (Some (ArrayType Lbrack Len Elt))) =
  panic nilDereference.
Proof.
  intros Hs Hn. unfold typeSpec. rewrite Hs, Hn. reflexivity.
Qed.

(** The same declaration with an array of floats: the finding starts at
    the bracket of the array type. *)
Lemma typeSpec_array_float {go : GoLib} (f : FloatMoney) (Name_ : Ident)
  (TypeParams : option FieldList) (Lbrack : Pos) (Len : option Expr) (x : Ident) :
  isSuspicious (watchlist f) (Name Name_) = true ->
  isFloatTypeName (Name x) = true ->
  typeSpec f (TypeSpec Name_ TypeParams (Some (ArrayType Lbrack Len (Ident_ x)))) =
  ([diag Lbrack (Ident_End x) (msgAlias (Name x))], Returns None).
Proof.
  intros Hs Hx. unfold typeSpec. rewrite Hs. simpl. now rewrite Hx.
Qed.

(** ** The literals of strconv *)

(** The integer parse is a 64-bit one: a decimal literal beyond [int64]
    fails it with a range error, passes the float parse, and is a float
    expression. *)
Lemma isFloatExpr_beyond_int64 :
  strconv.ParseInt "9223372036854775808" 0 64 = (2 ^ 63 - 1, Some strconv.ErrRange) /\
  isFloatExpr (BasicLit_ (mkBasicLit 1 INT "9223372036854775808")) = true.
Proof. split; vm_compute; reflexivity. Qed.

(** A text that opens like a string literal is no float for [ParseFloat]. *)
Lemma ParseFloat_string_literal (q : ascii) (text : string) (bitSize : Z) :
  q = ascii_of_nat 34 \/ q = "`"%char ->
  strconv.ParseFloat_err (String q text) bitSize = Some strconv.ErrSyntax.
Proof.
  intros [-> | ->]; unfold strconv.ParseFloat_err, strconv.bytes; simpl;
    destruct (map byte (list_ascii_of_string text)) as [|c1 [|c2 r]];
    reflexivity.
Qed.

(* ================================================================== *)
(** * Part III: the claims *)
(* ================================================================== *)

(** C1 (code defect).  The traversal is not total: with watchlist
    ["price"], the file [type Price []string] makes [run] stop with a nil
    pointer dereference instead of going on without a match.  The type
    rule, on an array type, tests the array node against nil, not the
    identifier that [getInnerFloat] gave, and then reads its name. *)
Theorem run_panics_on_array_of_non_float :
  run (lint ["price"]) [priceFile "string"] =
  ([], Panics "runtime error: invalid memory address or nil pointer dereference").
Proof. vm_compute. reflexivity. Qed.

(** C2, as stated, fails: [func Convert(money float64) int] with watchlist
    ["money"] does not give exactly one finding. *)
Lemma convert_not_one_finding :
  ~ exists d, reports (run (lint ["money"]) [convertFile]) = [d].
Proof. intros [d H]. vm_compute in H. discriminate H. Qed.

(** C2 (amended).  With watchlist ["money"], [func Convert(money float64) int]
    gives two findings on the float type of the parameter, one of the
    function rule and one of the field rule, which meets the same parameter
    when the traversal goes down into the signature;
    [func MoneyConvert(x float64) int] gives exactly one, the function-rule
    finding on the float type of the parameter, whose name "x" is not
    suspicious. *)
Theorem function_scenarios :
  run (lint ["money"]) [convertFile] =
    ([diagIdent (ident 31 "float64") (msgParam "float64");
      diagIdent (ident 31 "float64") (msgField "float64")], Returns tt) /\
  run (lint ["money"]) [moneyConvertFile] =
    ([diagIdent (ident 32 "float64") (msgParam "float64")], Returns tt) /\
  isSuspicious ["money"] "x" = false.
Proof. repeat split; vm_compute; reflexivity. Qed.

(** C3, as stated, fails: in [func MoneyConvert(a float64, b float32) int]
    the second parameter yields a finding of the function rule. *)
Lemma second_parameter_reported :
  reports (callback (lint ["money"]) (Some (NDecl twoParams))) =
  [diagIdent (ident 32 "float64") (msgParam "float64");
   diagIdent (ident 43 "float32") (msgParam "float32")].
Proof. vm_compute. reflexivity. Qed.

(** C3 (amended).  In a function declaration the function rule goes through
    the parameter fields in order and then through the result fields in
    order, up to the first field whose type does not resolve, which ends the
    rule for the declaration.  Every field before that one, not only the
    first of each list, yields a finding on its resolved type when the name
    of the function or a name of the field is suspicious. *)
Theorem function_rule_fields (go : GoLib) (f : FloatMoney)
  (Recv : option FieldList) (Name_ : Ident) (typ : FuncType)
  (Body : option BlockStmt) :
  let params := fieldsOf (FuncType_Params typ) in
  let results := fieldsOf (FuncType_Results typ) in
  reports (callback f (Some (NDecl (FuncDecl Recv Name_ (Some typ) Body)))) =
  flat_map (funcFinding f msgParam (Name Name_)) (examined params) ++
  (if forallb resolves params
   then flat_map (funcFinding f msgResult (Name Name_)) (examined results)
   else []).
Proof.
  rewrite callback_FuncDecl, funcDecl_eq. reflexivity.
Qed.

(** C4 (code defect).  For [type Price []float64] with watchlist ["price"]
    the finding spans the array type, from its bracket at 23, and not the
    element type [float64], which starts at 25. *)
Theorem alias_array_finding_spans_array :
  let elt := ident 25 "float64" in
  let arr := ArrayType 23 None (Ident_ elt) in
  run (lint ["price"]) [priceFile "float64"] =
    ([diag (Expr_Pos arr) (Expr_End arr) (msgAlias "float64")], Returns tt) /\
  Expr_Pos arr = 23 /\ Ident_Pos elt = 25.
Proof. repeat split; vm_compute; reflexivity. Qed.

(** C5 (code defect).  An integer literal can be taken for a float
    literal.  [isFloatExpr] tells integers by [strconv.ParseInt(text, 0, 64)]
    and takes every error for "not an integer": the integer literal
    18446744073709551615 is out of the range of [int64], so the parse fails
    with a range error, [ParseFloat] accepts the text, and
    [const total = 18446744073709551615] with watchlist ["total"] is
    reported as a declaration with a float value. *)
Theorem integer_literal_reported_as_float :
  strconv.ParseInt "18446744073709551615" 0 64 = (2 ^ 63 - 1, Some strconv.ErrRange) /\
  strconv.ParseFloat_err "18446744073709551615" 64 = None /\
  isFloatExpr (BasicLit_ (mkBasicLit 26 INT "18446744073709551615")) = true /\
  run (lint ["total"]) [wideTotalFile] =
    ([diag 26 46 (msgDeclValue "18446744073709551615")], Returns tt).
Proof. repeat split; vm_compute; reflexivity. Qed.

(** The order of the two parses.  A literal whose text the integer parse
    accepts is not a float expression; neither is a literal that fails both
    parses, an identifier (the booleans [true] and [false] are
    identifiers), nor, with Go's [ParseFloat], a string literal.
    [isFloatExpr] is true exactly of a literal whose text fails the integer
    parse and passes the float parse. *)
Theorem isFloatExpr_integer_first :
  (forall (go : GoLib) (expr : Expr),
     isFloatExpr expr = true <->
     exists lit, expr = BasicLit_ lit /\
       snd (ParseInt (Value lit) 0 64) <> None /\
       ParseFloat_err (Value lit) 64 = None) /\
  (forall (go : GoLib) (lit : BasicLit),
     snd (ParseInt (Value lit) 0 64) = None ->
     isFloatExpr (BasicLit_ lit) = false) /\
  (forall (go : GoLib) (lit : BasicLit),
     ParseFloat_err (Value lit) 64 <> None ->
     isFloatExpr (BasicLit_ lit) = false) /\
  (forall (go : GoLib) (x : Ident), isFloatExpr (Ident_ x) = false) /\
  (forall (pos : Pos) (kind : Token) (q : ascii) (text : string),
     q = ascii_of_nat 34 \/ q = "`"%char ->
     isFloatExpr (BasicLit_ (mkBasicLit pos kind (String q text))) = false).
Proof.
  repeat split.
  - destruct expr as [x|lit| | |]; simpl; try discriminate.
    destruct (snd (ParseInt (Value lit) 0 64)) eqn:Hi; [|discriminate].
    destruct (ParseFloat_err (Value lit) 64) eqn:Hf; [discriminate|].
    intros _. exists lit. rewrite Hi. repeat split; congruence.
  - intros [lit [-> [Hi Hf]]]; simpl. rewrite Hf.
    destruct (snd (ParseInt (Value lit) 0 64)); congruence.
  - intros go lit Hi; simpl. now rewrite Hi.
  - intros go lit Hf; simpl.
    destruct (snd (ParseInt (Value lit) 0 64)); [|reflexivity].
    destruct (ParseFloat_err (Value lit) 64); congruence.
  - intros pos kind q text Hq.
    unfold isFloatExpr; cbn [Value ParseFloat_err golang].
    rewrite (ParseFloat_string_literal q text 64 Hq).
    now destruct (snd _).
Qed.

Lemma isFloatExpr_integer_first_witness :
  isFloatExpr (BasicLit_ (mkBasicLit 1 INT "100")) = false /\
  isFloatExpr (BasicLit_ (mkBasicLit 1 FLOAT "100.0")) = true /\
  isFloatExpr (BasicLit_ (mkBasicLit 1 STRING "abc")) = false.
Proof.
  destruct isFloatExpr_integer_first as [Hiff [Hint [Hfloat _]]].
  split; [|split].
  - apply (Hint golang). reflexivity.
  - apply (Hiff golang). eexists. split; [reflexivity|].
    split; [discriminate | reflexivity].
  - apply (Hfloat golang). discriminate.
Defined.

(** C6, as stated, fails: with an empty string on the watchlist the empty
    candidate is suspicious. *)
Lemma empty_candidate_suspicious :
  ~ (isSuspicious [""] "" = false).
Proof. vm_compute. discriminate. Qed.

(** C6 (amended).  [isSuspicious] is true exactly when the lower-cased
    candidate contains the lower-cased form of some watchlist entry as a
    substring; with an empty watchlist it is false; on the empty candidate
    it is true exactly when some watchlist entry lower-cases to the empty
    string, and false otherwise. *)
Theorem isSuspicious_substring (go : GoLib) (lower_empty : ToLower "" = "") :
  (forall target name,
     isSuspicious target name = true <->
     exists t, In t target /\ Substring (ToLower t) (ToLower name)) /\
  (forall name, isSuspicious [] name = false) /\
  (forall target,
     isSuspicious target "" = true <-> exists t, In t target /\ ToLower t = "").
Proof.
  repeat split.
  - rewrite isSuspicious_true. intros [t [Hin Hc]]. exists t.
    now rewrite <- Contains_Substring.
  - rewrite isSuspicious_true. intros [t [Hin Hc]]. exists t.
    now rewrite Contains_Substring.
  - rewrite isSuspicious_true. intros [t [Hin Hc]]. exists t.
    rewrite lower_empty in Hc. now rewrite <- Contains_empty.
  - rewrite isSuspicious_true. intros [t [Hin Hc]]. exists t.
    rewrite lower_empty. now rewrite Contains_empty.
Qed.

Lemma isSuspicious_substring_witness :
  ToLower "" = "" /\
  isSuspicious ["Price"] "userPRICEValue" = true /\
  isSuspicious ["Price"] "" = false.
Proof.
  destruct (isSuspicious_substring golang eq_refl) as [Hsub [_ Hempty]].
  split; [reflexivity|split].
  - apply Hsub. exists "Price". split; [now left|].
    exists "user", "value". reflexivity.
  - destruct (isSuspicious ["Price"] "") eqn:E; [|reflexivity].
    apply Hempty in E as [t [[<-|[]] Ht]]. discriminate Ht.
Defined.

(** C7.  With watchlist ["amount"], the struct type [Amount] with the
    fields [Value float64] and [Currency string] gives exactly one finding,
    on the float type of [Value]; [Currency] gives none, and the finding
    made before it stays. *)
Theorem amount_scenario :
  run (lint ["amount"]) [amountFile] =
  ([diagIdent (ident 40 "float64") (msgStructField "float64")], Returns tt).
Proof. vm_compute. reflexivity. Qed.

(** C8.  [getInnerFloat] gives an identifier exactly for a float type name,
    which it returns, and for an array whose element is a float type name,
    of which it returns the element; every other shape gives nil, an array
    of an array of floats included: one level of array is unwrapped, no
    more. *)
Theorem getInnerFloat_shapes :
  (forall typ : string,
     isFloatTypeName typ = true <-> typ = "float32" \/ typ = "float64") /\
  (forall (typ : option Expr) (x : Ident),
     getInnerFloat typ = Some x <->
     isFloatTypeName (Name x) = true /\
     (typ = Some (Ident_ x) \/
      exists Lbrack Len, typ = Some (ArrayType Lbrack Len (Ident_ x)))) /\
  (forall typ : option Expr,
     (forall x, typ <> Some (Ident_ x)) ->
     (forall Lbrack Len x, typ <> Some (ArrayType Lbrack Len (Ident_ x))) ->
     getInnerFloat typ = None) /\
  (forall Lbrack Len Lbrack' Len' Elt,
     getInnerFloat (Some (ArrayType Lbrack Len (ArrayType Lbrack' Len' Elt))) = None).
Proof.
  split; [exact isFloatTypeName_true | split; [|split; [|reflexivity]]].
  - intros typ x; split.
    + destruct typ as [[y| |Lbrack Len [y| | | |]| |]|]; simpl; try discriminate.
      * destruct (isFloatTypeName (Name y)) eqn:E; [|discriminate].
        intros [= ->]. auto.
      * destruct (isFloatTypeName (Name y)) eqn:E; [|discriminate].
        intros [= ->]. eauto.
    + intros [Hx [-> | [Lbrack [Len ->]]]]; simpl; now rewrite Hx.
  - intros typ Hident Harray.
    destruct typ as [[y| |Lbrack Len [y| | | |]| |]|]; try reflexivity.
    + now elim (Hident y).
    + now elim (Harray Lbrack Len y).
Qed.

Lemma getInnerFloat_shapes_witness :
  getInnerFloat (typed 7 "float64") = Some (ident 7 "float64") /\
  getInnerFloat (Some (ArrayType 5 None (Ident_ (ident 7 "float32")))) =
    Some (ident 7 "float32") /\
  getInnerFloat
    (Some (ArrayType 3 None (ArrayType 5 None (Ident_ (ident 7 "float32"))))) = None.
Proof.
  destruct getInnerFloat_shapes as [Hname [Hshape [_ Hnested]]].
  split; [|split].
  - apply Hshape. split; [apply Hname; now right | now left].
  - apply Hshape. split; [apply Hname; now left | right; eauto].
  - apply Hnested.
Defined.

(** C9.  With an empty watchlist [run] reports nothing, whatever the
    files. *)
Theorem empty_watchlist_inert (go : GoLib) (Files : list File) :
  reports (run (lint []) Files) = [].
Proof.
  unfold run. apply quiet_forEach. intros file.
  apply quiet_Inspect. intros n. now apply quiet_callback.
Qed.

(** C10.  When a parameter of a function declaration has a type that does
    not resolve to a float, the function rule returns at the first such
    parameter: its findings are those of the parameters before it, no
    result field is examined, and no finding is a 'return value'
    finding. *)
Theorem function_rule_returns_early (go : GoLib) (f : FloatMoney)
  (Recv : option FieldList) (Name_ : Ident) (Func : Pos)
  (TypeParams : option FieldList) (Params : FieldList)
  (Results : option FieldList) (Body : option BlockStmt) :
  (exists fd, In fd (FieldList_List Params) /\
              getInnerFloat (Field_Type fd) = None) ->
  let decl := FuncDecl Recv Name_
                (Some (mkFuncType Func TypeParams (Some Params) Results)) Body in
  callback f (Some (NDecl decl)) =
    (flat_map (funcFinding f msgParam (Name Name_))
       (examined (FieldList_List Params)), Returns true) /\
  forall d, In d (reports (callback f (Some (NDecl decl)))) ->
            forall typ, Message d <> msgResult typ.
Proof.
  intros [fd [Hin Hfd]] decl.
  assert (Hall : forallb resolves (FieldList_List Params) = false).
  { apply not_true_is_false. intros Hall.
    rewrite forallb_forall in Hall. specialize (Hall fd Hin).
    unfold resolves in Hall. now rewrite Hfd in Hall. }
  assert (Heq : callback f (Some (NDecl decl)) =
                (flat_map (funcFinding f msgParam (Name Name_))
                   (examined (FieldList_List Params)), Returns true)).
  { unfold decl. rewrite callback_FuncDecl, funcDecl_eq. cbv zeta.
    cbn [FuncType_Params fieldsOf reports fst]. rewrite Hall.
    now rewrite app_nil_r. }
  split; [exact Heq|].
  intros d Hd typ. rewrite Heq in Hd. cbn [reports fst] in Hd.
  apply funcFinding_message in Hd as [typ' ->].
  apply msgParam_msgResult.
Qed.

Lemma function_rule_returns_early_witness :
  reports (callback (lint ["money"]) (Some (NDecl floatResult))) = [].
Proof.
  assert (H : exists fd, In fd [mkField [ident 30 "x"] (typed 32 "int") None] /\
                         getInnerFloat (Field_Type fd) = None).
  { eexists; split; [left; reflexivity | reflexivity]. }
  pose proof (function_rule_returns_early golang (lint ["money"]) None
                (ident 17 "MoneyConvert") 12 None
                (mkFieldList 29 [mkField [ident 30 "x"] (typed 32 "int") None] 35)
                (bare 37 "float64") None H) as [Heq _].
  unfold floatResult. rewrite Heq. reflexivity.
Defined.

(* ================================================================== *)
(** * Part IV: further properties of the code *)
(* ================================================================== *)

(** ** The matcher *)

Lemma Substring_trans (a b c : string) :
  Substring a b -> Substring b c -> Substring a c.
Proof.
  intros [p1 [q1 ->]] [p2 [q2 ->]].
  exists (p2 ++ p1)%string, (q1 ++ q2)%string.
  induction p2 as [|ch p2 IH]; simpl.
  - induction p1 as [|ch p1 IH1]; simpl.
    + induction a as [|ch a IHa]; simpl; [reflexivity | now rewrite IHa].
    + now rewrite IH1.
  - now rewrite IH.
Qed.

Lemma ToLower_model_idempotent (s : string) :
  strings.ToLower (strings.ToLower s) = strings.ToLower s.
Proof.
  induction s as [|c s IH]; simpl; [reflexivity|]. rewrite IH. f_equal.
  destruct c as [[] [] [] [] [] [] [] []]; reflexivity.
Qed.

Lemma isSuspicious_app {go : GoLib} (t1 t2 : list string) (name : string) :
  isSuspicious (t1 ++ t2) name = isSuspicious t1 name || isSuspicious t2 name.
Proof.
  induction t1 as [|t t1 IH]; simpl; [reflexivity|].
  now destruct (strings.Contains (ToLower name) (ToLower t)).
Qed.

(** X1.  [intersects] is true exactly when one of the searched names
    contains, lower-cased, the lower-cased form of a watchlist entry; with
    nothing to search, or nothing on the watchlist, it is false. *)
Theorem intersects_any (go : GoLib) (target search : list string) :
  (intersects target search = true <->
   exists s t, In s search /\ In t target /\ Substring (ToLower t) (ToLower s)) /\
  intersects target [] = false /\
  intersects [] search = false.
Proof.
  split; [|split; [reflexivity | apply intersects_nil]].
  rewrite intersects_true. split.
  - intros [s [Hs Hsus]]. apply isSuspicious_true in Hsus as [t [Ht Hc]].
    exists s, t. now rewrite <- Contains_Substring.
  - intros [s [t [Hs [Ht Hsub]]]]. exists s. split; [exact Hs|].
    apply isSuspicious_true. exists t. now rewrite Contains_Substring.
Qed.

(** X2.  Watchlists and searched names add up: a name is suspicious for two
    watchlists put together exactly when it is for one of them, and so for
    [intersects], in the watchlist and in the names searched.  Adding
    entries or names never turns a match into a miss. *)
Theorem matcher_append (go : GoLib) (t1 t2 s1 s2 : list string) (name : string) :
  isSuspicious (t1 ++ t2) name = isSuspicious t1 name || isSuspicious t2 name /\
  intersects (t1 ++ t2) s1 = intersects t1 s1 || intersects t2 s1 /\
  intersects t1 (s1 ++ s2) = intersects t1 s1 || intersects t1 s2.
Proof.
  split; [apply isSuspicious_app | split].
  - induction s1 as [|s s1 IH]; simpl; [reflexivity|].
    rewrite isSuspicious_app, IH.
    destruct (isSuspicious t1 s), (isSuspicious t2 s),
             (intersects t1 s1), (intersects t2 s1); reflexivity.
  - induction s1 as [|s s1 IH]; simpl; [reflexivity|].
    rewrite IH. now destruct (isSuspicious t1 s).
Qed.

(** X3.  Matching ignores case, when lower-casing what is lower-cased
    changes nothing: the answer is the same for a candidate and its
    lower-cased form, and for a watchlist and its lower-cased entries. *)
Theorem isSuspicious_ignores_case (go : GoLib)
  (idempotent : forall s, ToLower (ToLower s) = ToLower s)
  (target : list string) (name : string) :
  isSuspicious target (ToLower name) = isSuspicious target name /\
  isSuspicious (map ToLower target) name = isSuspicious target name.
Proof.
  split; induction target as [|t target IH]; simpl; try reflexivity.
  - now rewrite idempotent, IH.
  - now rewrite idempotent, IH.
Qed.

Lemma isSuspicious_ignores_case_witness :
  isSuspicious ["price"] (ToLower "UnitPRICE") = isSuspicious ["price"] "UnitPRICE" /\
  isSuspicious (map ToLower ["Price"]) "unitprice" = isSuspicious ["Price"] "unitprice".
Proof.
  split.
  - apply (isSuspicious_ignores_case golang ToLower_model_idempotent ["price"]).
  - apply (isSuspicious_ignores_case golang ToLower_model_idempotent ["Price"]).
Defined.

(** X4.  A name that contains a suspicious name is suspicious, when the
    lower-cased form of the longer name is made of the lower-cased forms
    of its three parts (as it is for ASCII names). *)
Theorem isSuspicious_inside (go : GoLib)
  (target : list string) (name pre post : string) :
  ToLower (pre ++ name ++ post) = (ToLower pre ++ ToLower name ++ ToLower post)%string ->
  isSuspicious target name = true ->
  isSuspicious target (pre ++ name ++ post) = true.
Proof.
  intros Hparts. rewrite !isSuspicious_true.
  intros [t [Ht Hc]]. exists t. split; [exact Ht|].
  rewrite Contains_Substring in *.
  apply Substring_trans with (b := ToLower name); [exact Hc|].
  exists (ToLower pre), (ToLower post). exact Hparts.
Qed.

Lemma isSuspicious_inside_witness :
  isSuspicious ["price"] "Price" = true /\
  isSuspicious ["price"] ("total" ++ "Price" ++ "List") = true.
Proof.
  split; [reflexivity|].
  apply (isSuspicious_inside golang ["price"] "Price" "total" "List");
    reflexivity.
Defined.

(** ** The rules of the callback, one by one *)

Lemma intersects_existsb {go : GoLib} (target search : list string) :
  intersects target search = existsb (isSuspicious target) search.
Proof.
  induction search as [|s search IH]; simpl; [reflexivity|].
  rewrite IH. now destruct (isSuspicious target s).
Qed.

Lemma intersects_app {go : GoLib} (target s1 s2 : list string) :
  intersects target (s1 ++ s2) = intersects target s1 || intersects target s2.
Proof.
  rewrite !intersects_existsb. apply existsb_app.
Qed.

(** A loop whose first body reports [ds] and goes on. *)
Lemma forRange_cons_continue {A} (x : A) (l : list A)
  (body : A -> M (option bool)) (ds : list Diagnostic) :
  body x = (ds, Returns None) ->
  forRange (x :: l) body =
  (ds ++ reports (forRange l body), outcome (forRange l body)).
Proof.
  intros Hx. simpl. rewrite Hx. simpl. now destruct (forRange l body).
Qed.

(** A loop whose first body reports [ds] and returns. *)
Lemma forRange_cons_return {A} (x : A) (l : list A)
  (body : A -> M (option bool)) (ds : list Diagnostic) (b : bool) :
  body x = (ds, Returns (Some b)) ->
  forRange (x :: l) body = (ds, Returns (Some b)).
Proof.
  intros Hx. simpl. rewrite Hx. simpl. now rewrite app_nil_r.
Qed.

(** X5.  The field rule: a field whose type resolves is reported, once and
    on the resolved type, exactly when one of its names or the text of its
    tag is suspicious; the tag counts like a name.  The callback answers
    true in every case. *)
Theorem field_rule (go : GoLib) (f : FloatMoney) (fd : Field) :
  let hit :=
    existsb (fun x => isSuspicious (watchlist f) (Name x)) (Field_Names fd) ||
    match Field_Tag fd with
    | Some tag => isSuspicious (watchlist f) (Value tag)
    | None => false
    end in
  callback f (Some (NField fd)) =
  (match getInnerFloat (Field_Type fd) with
   | Some typ => if hit then [diagIdent typ (msgField (Name typ))] else []
   | None => []
   end, Returns true).
Proof.
  intros hit.
  assert (Hhit : intersects (watchlist f)
                   (map Name (Field_Names fd) ++
                    match Field_Tag fd with
                    | Some tag => [Value tag]
                    | None => []
                    end) = hit).
  { unfold hit. rewrite intersects_app. f_equal.
    - induction (Field_Names fd) as [|x l IH]; simpl; [reflexivity|].
      rewrite IH. now destruct (isSuspicious (watchlist f) (Name x)).
    - destruct (Field_Tag fd); simpl; [|reflexivity].
      now destruct (isSuspicious (watchlist f) (Value b)). }
  unfold callback, field. rewrite Hhit.
  destruct (getInnerFloat (Field_Type fd)); [|reflexivity].
  now destruct hit.
Qed.

Lemma valueSpec_eq {go : GoLib} (f : FloatMoney) (spec : Spec) :
  isValueSpec spec = true ->
  valueSpec f spec =
  (valueFinding f spec, Returns (if hasFloat spec then None else Some true)).
Proof.
  destruct spec as [|Names Type_ Values|]; try discriminate. intros _.
  unfold valueSpec, valueFinding, hasFloat, floatOf, specNames.
  destruct (match getInnerFloat Type_ with
            | Some ident => Some (Ident_ ident)
            | None => find isFloatExpr Values
            end) as [e|].
  - destruct (intersects (watchlist f) (map Name Names)); [|reflexivity].
    now destruct e.
  - now destruct (intersects (watchlist f) (map Name Names)).
Qed.

Lemma forRange_valueSpec {go : GoLib} (f : FloatMoney) (specs : list Spec) :
  forallb isValueSpec specs = true ->
  forRange specs (valueSpec f) =
  (flat_map (valueFinding f) (leading hasFloat specs),
   Returns (if forallb hasFloat specs then None else Some true)).
Proof.
  induction specs as [|spec specs IH]; [reflexivity|].
  cbn [forallb]. rewrite andb_true_iff. intros [Hspec Hspecs].
  pose proof (valueSpec_eq f spec Hspec) as Heq.
  cbn [leading forallb]. destruct (hasFloat spec) eqn:E.
  - rewrite (forRange_cons_continue _ _ _ _ Heq), (IH Hspecs). reflexivity.
  - rewrite (forRange_cons_return _ _ _ _ _ Heq).
    unfold valueFinding, hasFloat in *.
    destruct (floatOf spec); [discriminate|].
    now destruct (intersects _ _).
Qed.

(** X6.  The value rule on a [var] or [const] declaration: the specs are
    taken in order up to the first that has neither a float type nor a
    float literal among its initializers, which ends the whole group.  Each
    spec before it gives at most one finding, when one of its names is
    suspicious: on the declared type when that resolves, else on the first
    float literal, whichever of the names it initializes. *)
Theorem value_rule (go : GoLib) (f : FloatMoney) (Tok : Token) (Specs : list Spec) :
  Tok = VAR \/ Tok = CONST ->
  forallb isValueSpec Specs = true ->
  callback f (Some (NDecl (GenDecl Tok Specs))) =
    (flat_map (valueFinding f) (leading hasFloat Specs), Returns true) /\
  forall spec, (List.length (valueFinding f spec) <= 1)%nat.
Proof.
  intros HTok Hspecs. split.
  - unfold callback, genDecl.
    assert (Hloop := forRange_valueSpec f Specs Hspecs).
    destruct HTok as [-> | ->]; rewrite Hloop; simpl;
      destruct (forallb hasFloat Specs); simpl; now rewrite app_nil_r.
  - intros spec. unfold valueFinding.
    destruct (intersects _ _); [|simpl; auto].
    destruct (floatOf spec) as [[]|]; simpl; auto.
Qed.

(** [var price, rate = 1.5, 2.5] beside [var n = 1] and [var total = 3.5]:
    with "rate" on the watchlist the literal 1.5 is reported; the spec of
    [n] ends the group, so with "total" on it nothing is. *)
Lemma value_rule_witness :
  let specs :=
    [ValueSpec [ident 17 "price"; ident 24 "rate"] None
       [BasicLit_ (mkBasicLit 31 FLOAT "1.5"); BasicLit_ (mkBasicLit 36 FLOAT "2.5")];
     ValueSpec [ident 41 "n"] None [BasicLit_ (mkBasicLit 45 INT "1")];
     ValueSpec [ident 48 "total"] None [BasicLit_ (mkBasicLit 56 FLOAT "3.5")]] in
  reports (callback (lint ["rate"]) (Some (NDecl (GenDecl VAR specs)))) =
    [diag 31 34 (msgDeclValue "1.5")] /\
  reports (callback (lint ["total"]) (Some (NDecl (GenDecl VAR specs)))) = [].
Proof.
  intros specs. split.
  - rewrite (proj1 (value_rule golang (lint ["rate"]) VAR specs
                      (or_introl eq_refl) eq_refl)).
    reflexivity.
  - rewrite (proj1 (value_rule golang (lint ["total"]) VAR specs
                      (or_introl eq_refl) eq_refl)).
    reflexivity.
Defined.

Lemma forRange_structField (fields : list Field) :
  forRange fields structField =
  (flat_map structFinding (examined fields),
   Returns (if forallb resolves fields then None else Some true)).
Proof.
  induction fields as [|fd fields IH]; [reflexivity|].
  cbn [examined forallb]. unfold resolves at 1 2.
  destruct (getInnerFloat (Field_Type fd)) as [typ|] eqn:E.
  - assert (Hfd : structField fd =
                  ([diagIdent typ (msgStructField (Name typ))], Returns None))
      by (unfold structField; now rewrite E).
    rewrite (forRange_cons_continue _ _ _ _ Hfd), IH.
    cbn [flat_map andb reports outcome fst snd]. unfold structFinding at 2.
    now rewrite E.
  - assert (Hfd : structField fd = ([], Returns (Some true)))
      by (unfold structField; now rewrite E).
    now rewrite (forRange_cons_return _ _ _ _ _ Hfd).
Qed.

(** X7.  The struct rule: in a type declaration, a struct type with a
    suspicious name gives one finding for each field whose type resolves,
    whatever the names of the fields, up to the first field that does not
    resolve.  When every field resolves the group goes on with the next
    spec; the first field that does not resolve ends the group. *)
Theorem struct_rule (go : GoLib) (f : FloatMoney) (Name_ : Ident)
  (TypeParams : option FieldList) (Struct : Pos) (Fields : FieldList)
  (rest : list Spec) :
  isSuspicious (watchlist f) (Name Name_) = true ->
  let spec := TypeSpec Name_ TypeParams (Some (StructType Struct Fields)) in
  let fields := FieldList_List Fields in
  genDecl f TYPE (spec :: rest) =
  if forallb resolves fields
  then (flat_map structFinding fields ++ reports (genDecl f TYPE rest),
        outcome (genDecl f TYPE rest))
  else (flat_map structFinding (examined fields), Returns (Some true)).
Proof.
  intros Hs spec fields.
  assert (Hspec : typeSpec f spec =
                  (flat_map structFinding (examined fields),
                   Returns (if forallb resolves fields then None else Some true))).
  { unfold spec, typeSpec. rewrite Hs. cbn [negb]. apply forRange_structField. }
  unfold genDecl. destruct (forallb resolves fields) eqn:E.
  - rewrite (forRange_cons_continue _ _ _ _ Hspec).
    replace (examined fields) with fields; [reflexivity|].
    clear Hspec. induction fields as [|fd fields IH]; [reflexivity|].
    cbn [forallb] in E. apply andb_true_iff in E as [E1 E2].
    cbn [examined]. rewrite E1. f_equal. now apply IH.
  - exact (forRange_cons_return _ _ _ _ _ Hspec).
Qed.

(** [type Amount struct { Value float64; Currency string; Net float32 }],
    followed by [type Price float64]: [Currency] ends the group. *)
Lemma struct_rule_witness :
  reports
    (genDecl (lint ["amount"; "price"]) TYPE
       [TypeSpec (ident 17 "Amount") None
          (Some (StructType 24
             (mkFieldList 31
                [mkField [ident 34 "Value"] (typed 40 "float64") None;
                 mkField [ident 49 "Currency"] (typed 58 "string") None;
                 mkField [ident 66 "Net"] (typed 70 "float32") None]
                78)));
        TypeSpec (ident 85 "Price") None (typed 91 "float64")]) =
  [diagIdent (ident 40 "float64") (msgStructField "float64")].
Proof.
  rewrite (struct_rule golang (lint ["amount"; "price"]) (ident 17 "Amount") None 24
             _ _ eq_refl).
  reflexivity.
Defined.

(** X8.  The head of a type declaration group.  A spec whose name is not
    suspicious ends the group with no finding, whatever follows.  A
    suspicious spec whose right-hand side is an identifier gives a finding
    on it when it names a float type, and the group goes on; a suspicious
    spec without a right-hand side, or with a literal or any other kind of
    expression, is passed over. *)
Theorem type_rule_head (go : GoLib) (f : FloatMoney) (Name_ : Ident)
  (TypeParams : option FieldList) (rest : list Spec) :
  (isSuspicious (watchlist f) (Name Name_) = false ->
   forall Type_,
     callback f (Some (NDecl (GenDecl TYPE (TypeSpec Name_ TypeParams Type_ :: rest)))) =
     ([], Returns true)) /\
  (isSuspicious (watchlist f) (Name Name_) = true ->
   (forall x,
      genDecl f TYPE (TypeSpec Name_ TypeParams (Some (Ident_ x)) :: rest) =
      ((if isFloatTypeName (Name x) then [diagIdent x (msgAlias (Name x))] else []) ++
       reports (genDecl f TYPE rest), outcome (genDecl f TYPE rest))) /\
   (forall Type_,
      match Type_ with
      | Some (Ident_ _) | Some (ArrayType _ _ _) | Some (StructType _ _) => False
      | _ => True
      end ->
      genDecl f TYPE (TypeSpec Name_ TypeParams Type_ :: rest) = genDecl f TYPE rest)).
Proof.
  split; [|intros H; split].
  - intros Hs Type_. unfold callback, genDecl.
    assert (Hspec : typeSpec f (TypeSpec Name_ TypeParams Type_) =
                    ([], Returns (Some true)))
      by (unfold typeSpec; now rewrite Hs).
    now rewrite (forRange_cons_return _ _ _ _ _ Hspec).
  - intros x. unfold genDecl.
    apply forRange_cons_continue. unfold typeSpec. rewrite H. simpl.
    now destruct (isFloatTypeName (Name x)).
  - intros Type_ HT. unfold genDecl.
    assert (Hspec : typeSpec f (TypeSpec Name_ TypeParams Type_) = ([], Returns None)).
    { unfold typeSpec. rewrite H. simpl.
      destruct Type_ as [[]|]; try reflexivity; destruct HT. }
    rewrite (forRange_cons_continue _ _ _ _ Hspec). simpl.
    now destruct (forRange rest (typeSpec f)).
Qed.

(** [type ( Count float64; Price float64 )] with watchlist ["price"]: the
    spec of [Count] ends the group and [Price] is not reported; in the
    other order it is. *)
Lemma type_rule_head_witness :
  reports (callback (lint ["price"])
             (Some (NDecl (GenDecl TYPE
                [TypeSpec (ident 20 "Count") None (typed 26 "float64");
                 TypeSpec (ident 35 "Price") None (typed 41 "float64")])))) = [] /\
  reports (genDecl (lint ["price"]) TYPE
             [TypeSpec (ident 20 "Price") None (typed 26 "float64");
              TypeSpec (ident 35 "Count") None (typed 41 "float64")]) =
    [diagIdent (ident 26 "float64") (msgAlias "float64")].
Proof.
  split.
  - rewrite (proj1 (type_rule_head golang (lint ["price"]) (ident 20 "Count") None _)
               eq_refl).
    reflexivity.
  - unfold typed at 1.
    rewrite (proj1 (proj2 (type_rule_head golang (lint ["price"]) (ident 20 "Price")
                             None _) eq_refl)).
    reflexivity.
Defined.

(** ** What every finding looks like *)

Section Every.

Variable P : Diagnostic -> Prop.

Lemma every_ret {A} (a : A) : every P (ret a).
Proof. constructor. Qed.

Lemma every_panic {A} (why : string) : every P (@panic A why).
Proof. constructor. Qed.

Lemma every_Report (d : Diagnostic) : P d -> every P (Report d).
Proof. intros Hd. repeat constructor. exact Hd. Qed.

Lemma every_bind {A B} (m : M A) (k : A -> M B) :
  every P m -> (forall a, every P (k a)) -> every P (bind m k).
Proof.
  unfold every; intros Hm Hk. rewrite reports_bind. apply Forall_app.
  split; [exact Hm|]. destruct (outcome m); [apply Hk | constructor].
Qed.

Lemma every_forRange {A} (l : list A) (body : A -> M (option bool)) :
  (forall x, every P (body x)) -> every P (forRange l body).
Proof.
  intros Hb; induction l as [|x l IH]; simpl.
  - apply every_ret.
  - apply every_bind; [apply Hb | intros [b|]; [apply every_ret | exact IH]].
Qed.

Lemma every_forEach {A} (walk : A -> M unit) (l : list A) :
  (forall x, every P (walk x)) -> every P (forEach walk l).
Proof.
  intros Hw; induction l as [|x l IH]; simpl.
  - apply every_ret.
  - apply every_bind; [apply Hw | intros _; exact IH].
Qed.

Lemma every_forEach_all {A} (walk : A -> M unit) (l : list A) :
  list_all A (fun x => every P (walk x)) l -> every P (forEach walk l).
Proof.
  induction 1 as [|x Hx l Hl IH]; simpl.
  - apply every_ret.
  - apply every_bind; [exact Hx | intros _; exact IH].
Qed.

Lemma every_walkOpt_all {A} (walk : A -> M unit) (o : option A) :
  option_all A (fun x => every P (walk x)) o -> every P (walkOpt walk o).
Proof.
  destruct 1; simpl; [assumption | apply every_ret].
Qed.

Variable f : option Node -> M bool.
Hypothesis f_every : forall n, every P (f n).

Lemma every_visiting (n : Node) (children : M unit) :
  every P children -> every P (visiting f n children).
Proof.
  intros Hc. unfold visiting.
  apply every_bind; [apply f_every | intros [|]; [|apply every_ret]].
  apply every_bind; [exact Hc | intros _].
  apply every_bind; [apply f_every | intros _; apply every_ret].
Qed.

Lemma every_walkNil : every P (walkNil f).
Proof.
  unfold walkNil. apply every_bind; [apply f_every|].
  intros [|]; [apply every_panic | apply every_ret].
Qed.

Ltac every_step :=
  first
    [ assumption
    | apply every_ret
    | apply every_panic
    | apply every_walkNil
    | apply every_visiting
    | apply every_bind; [|intros _]
    | apply every_forEach_all
    | apply every_walkOpt_all
    | apply list_all_forall; intros ?
    | apply option_all_forall; intros ?
    | match goal with
      | H : option_all _ _ ?o |- context [match ?o with _ => _ end] => destruct H
      end ].

(** What holds of every report of the callback holds of every report of a
    traversal. *)
Lemma every_Walk :
  (forall e, every P (WalkExpr f e)) /\
  (forall fd, every P (WalkField f fd)) /\
  (forall l, every P (WalkFieldList f l)) /\
  (forall t, every P (WalkFuncType f t)) /\
  (forall s, every P (WalkSpec f s)) /\
  (forall d, every P (WalkDecl f d)) /\
  (forall s, every P (WalkStmt f s)) /\
  (forall b, every P (WalkBlockStmt f b)) /\
  (forall fl, every P (WalkFile f fl)) /\
  (forall n, every P (WalkNode f n)).
Proof.
  apply syntax_mutind; intros; simpl; repeat every_step.
Qed.

End Every.

Lemma getInnerFloat_float (typ : option Expr) (x : Ident) :
  getInnerFloat typ = Some x -> isFloatTypeName (Name x) = true.
Proof.
  destruct typ as [[y| |Lbrack Len [y| | | |]| |]|]; simpl; try discriminate;
    destruct (isFloatTypeName (Name y)) eqn:E; try discriminate;
    intros [= <-]; exact E.
Qed.

Section CallbackFindings.

Context {go : GoLib}.
Variable f : FloatMoney.

Lemma aboutFloat_type (pos end_ : Pos) (message : string -> string) (typ : string) :
  isFloatTypeName typ = true ->
  In message [msgDeclType; msgAlias; msgStructField; msgParam; msgResult; msgField] ->
  aboutFloat (diag pos end_ (message typ)).
Proof.
  intros Htyp Hm. split; [reflexivity|]. left. exists typ. split; [exact Htyp|].
  simpl in *. intuition (subst; auto).
Qed.

Lemma every_funcField (message : string -> string) (fname : string) (fd : Field) :
  In message [msgDeclType; msgAlias; msgStructField; msgParam; msgResult; msgField] ->
  every aboutFloat (funcField f message fname fd).
Proof.
  intros Hm. rewrite funcField_eq. unfold every, funcFinding; simpl.
  destruct (getInnerFloat (Field_Type fd)) as [typ|] eqn:E; [|constructor].
  destruct (_ || _); [|constructor]. constructor; [|constructor].
  apply aboutFloat_type; [now apply getInnerFloat_float in E | exact Hm].
Qed.

Lemma every_valueSpec (spec : Spec) : every aboutFloat (valueSpec f spec).
Proof.
  destruct spec as [|Names Type_ Values|]; try apply every_panic.
  unfold valueSpec.
  destruct (getInnerFloat Type_) as [x|] eqn:E.
  - destruct (intersects _ _); [|apply every_ret].
    apply every_bind; [|intros _; apply every_ret].
    apply every_Report, aboutFloat_type; [now apply getInnerFloat_float in E|].
    simpl; auto.
  - destruct (find isFloatExpr Values) as [e|] eqn:Ef; [|apply every_ret].
    destruct (intersects _ _); [|apply every_ret].
    apply find_some in Ef as [_ Hfloat].
    destruct e as [x|lit| | |]; try discriminate.
    apply every_bind; [|intros _; apply every_ret].
    apply every_Report. split; [reflexivity|]. right. now exists lit.
Qed.

Lemma every_structField (fd : Field) : every aboutFloat (structField fd).
Proof.
  unfold structField.
  destruct (getInnerFloat (Field_Type fd)) as [typ|] eqn:E; [|apply every_ret].
  apply every_bind; [|intros _; apply every_ret].
  apply every_Report, aboutFloat_type; [now apply getInnerFloat_float in E|].
  simpl; auto.
Qed.

Lemma every_typeSpec (spec : Spec) : every aboutFloat (typeSpec f spec).
Proof.
  destruct spec as [| |Name_ TypeParams Type_]; try apply every_panic.
  unfold typeSpec. destruct (negb _); [apply every_ret|].
  destruct Type_ as [[x| |Lbrack Len Elt|Struct Fields|]|]; try apply every_ret.
  - destruct (getInnerFloat (Some (Ident_ x))) as [typ|] eqn:E; [|apply every_ret].
    apply every_bind; [|intros _; apply every_ret].
    apply every_Report, aboutFloat_type; [now apply getInnerFloat_float in E|].
    simpl; auto.
  - destruct (getInnerFloat (Some (ArrayType Lbrack Len Elt))) as [typ|] eqn:E;
      [|apply every_panic].
    apply every_bind; [|intros _; apply every_ret].
    apply every_Report, aboutFloat_type; [now apply getInnerFloat_float in E|].
    simpl; auto.
  - apply every_forRange, every_structField.
Qed.

Lemma every_callback (n : option Node) : every aboutFloat (callback f n).
Proof.
  unfold callback.
  apply every_bind; [|intros [b|]; apply every_ret].
  destruct n as [[e|fd|l|t|s|[|Tok Specs|Recv Name_ Type_ Body]|s|b|fl|]|];
    try apply every_ret.
  - unfold field.
    destruct (getInnerFloat (Field_Type fd)) as [typ|] eqn:E; [|apply every_ret].
    destruct (intersects _ _); [|apply every_ret].
    apply every_bind; [|intros _; apply every_ret].
    apply every_Report, aboutFloat_type; [now apply getInnerFloat_float in E|].
    simpl; auto 10.
  - unfold genDecl. destruct Tok; try apply every_ret; apply every_forRange;
      first [apply every_valueSpec | apply every_typeSpec].
  - unfold funcDecl. destruct Type_ as [typ|]; [|apply every_ret].
    apply every_bind.
    + destruct (FuncType_Params typ); [|apply every_ret].
      apply every_forRange. intros fd. apply every_funcField. simpl; auto 10.
    + intros [b|]; [apply every_ret|].
      destruct (FuncType_Results typ); [|apply every_ret].
      apply every_forRange. intros fd. apply every_funcField. simpl; auto 10.
Qed.

End CallbackFindings.

(** X9.  Whatever the files and the watchlist, every finding of [run] is
    about a float: it has category "floatmoney", and its message is one of
    the templates filled with "float32" or "float64", or the template for
    values filled with a literal that is a float expression, on the span of
    that literal.  This holds of the findings made before a panic too. *)
Theorem run_reports_floats (go : GoLib) (f : FloatMoney) (Files : list File)
  (d : Diagnostic) :
  In d (reports (run f Files)) -> aboutFloat d.
Proof.
  revert d. apply Forall_forall. change (every aboutFloat (run f Files)).
  unfold run. apply every_forEach. intros file.
  apply every_Walk. apply every_callback.
Qed.

Lemma run_reports_floats_witness :
  aboutFloat (diagIdent (ident 40 "float64") (msgStructField "float64")).
Proof.
  apply (run_reports_floats golang (lint ["amount"]) [amountFile]).
  vm_compute. left. reflexivity.
Defined.

(** ** Where the traversal comes to its end *)

Lemma outcome_forRange {A} (l : list A) (body : A -> M (option bool)) :
  (forall x, In x l -> exists o, outcome (body x) = Returns o) ->
  exists o, outcome (forRange l body) = Returns o.
Proof.
  induction l as [|x l IH]; intros Hb; simpl; [now exists None|].
  rewrite outcome_bind. destruct (Hb x (or_introl eq_refl)) as [o ->].
  destruct o as [b|]; [now exists (Some b)|].
  apply IH. intros y Hy. apply Hb. now right.
Qed.

Lemma outcome_forEach {A} (walk : A -> M unit) (ok : A -> bool) (l : list A) :
  list_all A (fun x => ok x = true -> outcome (walk x) = Returns tt) l ->
  forallb ok l = true -> outcome (forEach walk l) = Returns tt.
Proof.
  induction 1 as [|x Hx l Hl IH]; simpl; [reflexivity|].
  rewrite andb_true_iff. intros [Hok Hoks].
  rewrite outcome_bind, (Hx Hok). now apply IH.
Qed.

Section Returns.

Context {go : GoLib}.
Variable f : FloatMoney.

Lemma typeSpec_returns (spec : Spec) :
  specFits TYPE spec = true -> exists o, outcome (typeSpec f spec) = Returns o.
Proof.
  destruct spec as [| |Name_ TypeParams Type_]; try discriminate.
  unfold typeSpec. destruct (negb _); [now exists (Some true)|].
  destruct Type_ as [[x| |Lbrack Len Elt|Struct Fields|]|]; intros Hfit;
    try (now exists None).
  - destruct (getInnerFloat (Some (Ident_ x))); now exists None.
  - cbn [specFits] in Hfit.
    destruct (getInnerFloat (Some (ArrayType Lbrack Len Elt)));
      [now exists None | discriminate].
  - rewrite forRange_structField. cbn [outcome snd]. eauto.
Qed.

(** On a general declaration with fitting specs, as on every other node,
    the callback answers true. *)
Lemma callback_returns (n : option Node) :
  match n with
  | Some (NDecl (GenDecl Tok Specs)) => forallb (specFits Tok) Specs = true
  | _ => True
  end ->
  outcome (callback f n) = Returns true.
Proof.
  intros Hn.
  assert (H : exists b, outcome (callback f n) = Returns b).
  { unfold callback. rewrite outcome_bind.
    assert (Hret : forall o : option bool,
               exists b, outcome (match o with
                                  | Some b => ret b
                                  | None => ret true
                                  end) = Returns b)
      by (intros [b|]; eexists; reflexivity).
    destruct n as [[e|fd|l|t|s|[|Tok Specs|Recv Name_ Type_ Body]|s|b|fl|]|];
      try (apply (Hret None)).
    - unfold field. destruct (getInnerFloat (Field_Type fd)); [|apply (Hret (Some true))].
      destruct (intersects _ _); apply (Hret None).
    - assert (Hg : exists o, outcome (genDecl f Tok Specs) = Returns o).
      { rewrite forallb_forall in Hn. unfold genDecl.
        destruct Tok; try (now exists (Some true)); apply outcome_forRange;
          intros spec Hspec; specialize (Hn spec Hspec).
        - rewrite (valueSpec_eq f spec Hn). cbn [outcome snd]. eauto.
        - now apply typeSpec_returns.
        - rewrite (valueSpec_eq f spec Hn). cbn [outcome snd]. eauto. }
      destruct Hg as [o ->]. apply Hret.
    - destruct Type_ as [typ|]; [|apply (Hret (Some true))].
      rewrite funcDecl_eq. apply Hret. }
  destruct H as [b Hb]. rewrite Hb. f_equal. now apply (callback_true f n).
Qed.

Lemma visiting_returns (n : Node) (children : M unit) :
  match n with
  | NDecl (GenDecl Tok Specs) => forallb (specFits Tok) Specs = true
  | _ => True
  end ->
  outcome children = Returns tt ->
  outcome (visiting (callback f) n children) = Returns tt.
Proof.
  intros Hn Hc. unfold visiting.
  rewrite outcome_bind, (callback_returns (Some n) Hn).
  rewrite outcome_bind, Hc. reflexivity.
Qed.

Ltac split_ok :=
  repeat match goal with
         | H : _ && _ = true |- _ => apply andb_true_iff in H as [? ?]
         end.

Lemma returns_seq (m k : M unit) :
  outcome m = Returns tt -> outcome k = Returns tt ->
  outcome (m ;; k) = Returns tt.
Proof. intros Hm Hk. now rewrite outcome_bind, Hm. Qed.

Lemma WalkIdent_returns (x : Ident) :
  outcome (WalkIdent (callback f) x) = Returns tt.
Proof. now apply visiting_returns. Qed.

Lemma WalkBasicLit_returns (x : BasicLit) :
  outcome (WalkBasicLit (callback f) x) = Returns tt.
Proof. now apply visiting_returns. Qed.

Lemma forEach_returns {A} (walk : A -> M unit) (l : list A) :
  (forall x, outcome (walk x) = Returns tt) ->
  outcome (forEach walk l) = Returns tt.
Proof.
  intros Hw; induction l as [|x l IH]; simpl; [reflexivity|].
  now apply returns_seq.
Qed.

Ltac returns_step :=
  first
    [ reflexivity
    | assumption
    | discriminate
    | apply WalkIdent_returns
    | apply WalkBasicLit_returns
    | apply visiting_returns; [solve [exact I | assumption] |]
    | apply returns_seq
    | match goal with
      | H : ?ok = true -> outcome ?m = Returns tt |- outcome ?m = Returns tt =>
          apply H
      | H : list_all _ _ ?l |- outcome (forEach ?walk ?l) = Returns tt =>
          apply (outcome_forEach walk _ l H)
      | H : option_all _ _ ?o |- _ =>
          destruct H; cbn [walkOpt] in *; cbn beta iota in *
      | |- outcome (walkOpt _ ?o) = Returns tt => destruct o; cbn [walkOpt]
      end
    | apply forEach_returns; intros ? ].

(** A traversal with the callback of [run] comes to its end on a tree
    that is as the parser builds it and has no array type that does not
    resolve on the right of a type declaration. *)
Lemma Walk_returns :
  (forall e, okExpr e = true -> outcome (WalkExpr (callback f) e) = Returns tt) /\
  (forall fd, okField fd = true -> outcome (WalkField (callback f) fd) = Returns tt) /\
  (forall l, okFieldList l = true ->
             outcome (WalkFieldList (callback f) l) = Returns tt) /\
  (forall t, okFuncType t = true ->
             outcome (WalkFuncType (callback f) t) = Returns tt) /\
  (forall s, okSpec s = true -> outcome (WalkSpec (callback f) s) = Returns tt) /\
  (forall d, okDecl d = true -> outcome (WalkDecl (callback f) d) = Returns tt) /\
  (forall s, okStmt s = true -> outcome (WalkStmt (callback f) s) = Returns tt) /\
  (forall b, okBlockStmt b = true ->
             outcome (WalkBlockStmt (callback f) b) = Returns tt) /\
  (forall fl, okFile fl = true -> outcome (WalkFile (callback f) fl) = Returns tt) /\
  (forall n, okNode n = true -> outcome (WalkNode (callback f) n) = Returns tt).
Proof.
  apply syntax_mutind; intros;
    cbn [WalkExpr WalkField WalkFieldList WalkFuncType WalkSpec WalkDecl
         WalkStmt WalkBlockStmt WalkFile WalkNode];
    cbn [okExpr okField okFieldList okFuncType okSpec okDecl okStmt
         okBlockStmt okFile okNode] in *;
    split_ok; repeat (returns_step; split_ok).
Qed.

End Returns.

(** X10.  [run] comes to its end, without a panic, on files that are as
    the parser builds them (in every general declaration the specs are of
    the kind of the declaration; every type spec and function declaration
    has its type) and in which no type declaration has on its right an
    array type that does not resolve to a float.  The watchlist does not
    matter. *)
Theorem run_returns (go : GoLib) (f : FloatMoney) (Files : list File) :
  forallb okFile Files = true -> outcome (run f Files) = Returns tt.
Proof.
  unfold run, Inspect. apply outcome_forEach.
  apply list_all_forall. intros file Hok.
  cbn [WalkNode]. now apply Walk_returns.
Qed.

Lemma run_returns_witness :
  outcome (run (lint ["price"; "money"])
             [amountFile; convertFile; priceFile "float64"]) = Returns tt /\
  okFile (priceFile "string") = false.
Proof.
  split; [|reflexivity].
  apply (run_returns golang). reflexivity.
Defined.

(** ** The files of a pass *)

Lemma bind_assoc {A B C} (m : M A) (k : A -> M B) (h : B -> M C) :
  bind (bind m k) h = bind m (fun a => bind (k a) h).
Proof.
  destruct m as [ds [a|why]]; simpl; [|reflexivity].
  destruct (k a) as [ds' [b|why]]; simpl.
  - destruct (h b) as [ds'' o]. now rewrite app_assoc.
  - reflexivity.
Qed.

Lemma bind_ret_l {A B} (a : A) (k : A -> M B) : bind (ret a) k = k a.
Proof. simpl. now destruct (k a). Qed.

Lemma forEach_app {A} (walk : A -> M unit) (a b : list A) :
  forEach walk (a ++ b) = (forEach walk a ;; forEach walk b).
Proof.
  induction a as [|x a IH]; cbn [app forEach].
  - now rewrite bind_ret_l.
  - fold (forEach walk). now rewrite IH, bind_assoc.
Qed.

(** X11.  The files of a pass are inspected in order, each on its own:
    running over two lists of files put together is running over the first
    and then over the second.  When the first run comes to its end the
    findings are those of the first followed by those of the second; when
    it panics, the second list is not looked at and the findings made so
    far stay. *)
Theorem run_append (go : GoLib) (f : FloatMoney) (a b : list File) :
  run f (a ++ b) = (run f a ;; run f b) /\
  (outcome (run f a) = Returns tt ->
   reports (run f (a ++ b)) = reports (run f a) ++ reports (run f b) /\
   outcome (run f (a ++ b)) = outcome (run f b)) /\
  (forall why, outcome (run f a) = Panics why -> run f (a ++ b) = run f a).
Proof.
  assert (Heq : run f (a ++ b) = (run f a ;; run f b))
    by (unfold run; apply forEach_app).
  split; [exact Heq | split].
  - intros Ha. rewrite Heq, reports_bind, outcome_bind, Ha. auto.
  - intros why Ha. rewrite Heq.
    destruct (run f a) as [ds o]. simpl in Ha. subst o. reflexivity.
Qed.

Lemma run_append_witness :
  reports (run (lint ["amount"; "price"]) ([amountFile] ++ [priceFile "float64"])) =
    reports (run (lint ["amount"; "price"]) [amountFile]) ++
    reports (run (lint ["amount"; "price"]) [priceFile "float64"]) /\
  run (lint ["amount"; "price"]) ([amountFile; priceFile "string"] ++ [amountFile]) =
    run (lint ["amount"; "price"]) [amountFile; priceFile "string"].
Proof.
  split.
  - apply (run_append golang). reflexivity.
  - apply (proj2 (proj2 (run_append golang _ _ _)) nilDereference). reflexivity.
Defined.

(** X12.  The callback never answers false, so [ast.Inspect] goes down
    into every node; and it can only fail on a general declaration: on
    every other node, a function declaration or a field among them, it
    answers true. *)
Theorem callback_answers (go : GoLib) (f : FloatMoney) (n : option Node) :
  (forall b, outcome (callback f n) = Returns b -> b = true) /\
  ((forall Tok Specs, n <> Some (NDecl (GenDecl Tok Specs))) ->
   outcome (callback f n) = Returns true).
Proof.
  split; [apply callback_true|].
  intros Hn. apply callback_returns.
  destruct n as [[e|fd|l|t|s|[|Tok Specs|Recv Name_ Type_ Body]|s|b|fl|]|];
    try exact I.
  now elim (Hn Tok Specs).
Qed.

Lemma callback_answers_witness :
  outcome (callback (lint ["money"]) (Some (NDecl floatResult))) = Returns true.
Proof.
  apply (callback_answers golang). intros Tok Specs. discriminate.
Defined.

(** ** The plugin *)

(** X13.  [New] of package [main] fails exactly when the settings do not
    decode, with the error of the decoding and no analyzer.  Otherwise it
    gives exactly one analyzer, named "floatmoney", whose [Run] is [run]
    on the decoded settings; with no names in the settings that analyzer
    reports nothing, whatever the files. *)
Theorem main_New_analyzers (go : GoLib) (Any error : Type)
  (DecodeSettings : Any -> Settings + error) (settings : Any) :
  match DecodeSettings settings with
  | inr err =>
      New Any error DecodeSettings settings = inr err /\
      main_New Any error DecodeSettings settings = inr err
  | inl s =>
      New Any error DecodeSettings settings = inl (mkFloatMoney s) /\
      exists a,
        main_New Any error DecodeSettings settings = inl [a] /\
        Analyzer_Name a = "floatmoney" /\
        (forall Files, Run a Files = run (mkFloatMoney s) Files) /\
        (Names s = [] -> forall Files, reports (Run a Files) = [])
  end.
Proof.
  unfold main_New, New.
  destruct (DecodeSettings settings) as [s|err]; [|split; reflexivity].
  split; [reflexivity|]. eexists. split; [reflexivity|].
  split; [reflexivity|]. split; [reflexivity|].
  intros Hnames Files. cbn [Run]. unfold run.
  apply quiet_forEach. intros file. apply quiet_Inspect. intros n.
  now apply quiet_callback.
Qed.

Lemma main_New_analyzers_witness :
  exists a,
    main_New (list string) string (fun names => inl (mkSettings names)) [] = inl [a] /\
    Analyzer_Name a = "floatmoney" /\
    reports (Run a [convertFile; amountFile]) = [].
Proof.
  destruct (main_New_analyzers golang (list string) string
              (fun names => inl (mkSettings names)) [])
    as [_ [a [Hnew [Hname [_ Hquiet]]]]].
  exists a. split; [exact Hnew | split; [exact Hname|]].
  apply Hquiet. reflexivity.
Defined.

(** ** The array case of the type rule *)

(** X14.  In a type declaration, a spec with a suspicious name and an array
    type on its right: when the element is a float type name there is one
    finding, which starts at the bracket of the array type and ends with
    the element, and the group goes on; when the array does not resolve the
    callback panics at a nil pointer, the specs after it are not looked at,
    and nothing is reported for it. *)
Theorem array_rule (go : GoLib) (f : FloatMoney) (Name_ : Ident)
  (TypeParams : option FieldList) (Lbrack : Pos) (Len : option Expr) (Elt : Expr)
  (rest : list Spec) :
  isSuspicious (watchlist f) (Name Name_) = true ->
  let spec := TypeSpec Name_ TypeParams (Some (ArrayType Lbrack Len Elt)) in
  match getInnerFloat (Some (ArrayType Lbrack Len Elt)) with
  | Some x =>
      Elt = Ident_ x /\
      genDecl f TYPE (spec :: rest) =
      (diag Lbrack (Ident_End x) (msgAlias (Name x)) :: reports (genDecl f TYPE rest),
       outcome (genDecl f TYPE rest))
  | None => genDecl f TYPE (spec :: rest) = ([], Panics nilDereference)
  end.
Proof.
  intros Hs spec.
  destruct (getInnerFloat (Some (ArrayType Lbrack Len Elt))) as [x|] eqn:E.
  - assert (HElt : Elt = Ident_ x).
    { destruct Elt as [y| | | |]; simpl in E; try discriminate.
      destruct (isFloatTypeName (Name y)); [|discriminate]. congruence. }
    split; [exact HElt|]. subst Elt.
    assert (Hx := getInnerFloat_float _ _ E).
    unfold genDecl.
    exact (forRange_cons_continue _ _ _ _
             (typeSpec_array_float f Name_ TypeParams Lbrack Len x Hs Hx)).
  - unfold genDecl. cbn [forRange].
    unfold spec. rewrite (typeSpec_array_unresolved f _ _ _ _ _ Hs E).
    reflexivity.
Qed.

(** [type ( Price []int; Amount float64 )] with both names on the
    watchlist: the panic comes before [Amount] is looked at. *)
Lemma array_rule_witness :
  genDecl (lint ["price"; "amount"]) TYPE
    [TypeSpec (ident 20 "Price") None (Some (ArrayType 26 None (Ident_ (ident 28 "int"))));
     TypeSpec (ident 33 "Amount") None (typed 40 "float64")] =
  ([], Panics nilDereference).
Proof.
  exact (array_rule golang (lint ["price"; "amount"]) (ident 20 "Price") None 26 None
           (Ident_ (ident 28 "int")) _ eq_refl).
Defined.
